(** * QuantumX bot: command dispatch, audit logging and the leveling engine

    A shallow embedding of [src/bot/index.js] (classes [CommandHandler] and
    [EventHandler]) and the properties of its dispatch pipeline, its
    experience engine and its join handling.

    Layout:
    - [Float64]: the binary64 arithmetic the leveling formulas run on;
    - [Math], [Date]: the JavaScript built-ins the code calls;
    - rows and tables of the D1 database and the SQL statements the code
      prepares;
    - a state-and-exception monad [Js] for the [async]/[await] code with its
      [try]/[catch] blocks;
    - [CommandHandler] and [EventHandler] methods, under their source names;
    - the properties. *)

From stdpp Require Import gmap strings list.
From Stdlib Require Import ZArith Lia SpecFloat.

Open Scope Z_scope.

(** ** Binary64 numbers

    JavaScript numbers are IEEE-754 binary64 values.  The bot only computes
    with non-negative finite ones, far from the subnormal and overflow ranges,
    so a number is a pair [(m, e)] standing for [m * 2^e], and every operation
    computes the exact result and rounds it to 53 significant bits, ties to
    even. *)
Module Float64.

Record double := mk { mant : Z; expo : Z }.

(** [rne n s sticky]: [n / 2^s] rounded to the nearest integer, ties to
    even; [sticky] tells that [n] itself is already a truncation of the
    exact value (some non-zero part below it was dropped). *)
Definition rne (n s : Z) (sticky : bool) : Z :=
  if s <=? 0 then n
  else
    let q := n / 2 ^ s in
    let r := n mod 2 ^ s in
    let half := 2 ^ (s - 1) in
    if r <? half then q
    else if (half <? r) || sticky then q + 1
    else if Z.even q then q else q + 1.

(** Number of bits that do not fit in a 53-bit significand. *)
Definition excess (n : Z) : Z := Z.max 0 (Z.log2 n + 1 - 53).

Definition round (n e : Z) (sticky : bool) : double :=
  let s := excess n in mk (rne n s sticky) (e + s).

Definition of_Z (n : Z) : double := round n 0 false.
Definition of_N (n : N) : double := of_Z (Z.of_N n).

Definition mul (x y : double) : double :=
  round (mant x * mant y) (expo x + expo y) false.

Definition add (x y : double) : double :=
  let e := Z.min (expo x) (expo y) in
  round (mant x * 2 ^ (expo x - e) + mant y * 2 ^ (expo y - e)) e false.

(** Square root: the integer root of the significand scaled by [2^108]
    has more than 53 bits; whether it is exact is the sticky bit. *)
Definition sqrt (x : double) : double :=
  let (m, e) := if Z.even (expo x) then (mant x, expo x)
                else (2 * mant x, expo x - 1) in
  let n := m * 2 ^ 108 in
  let q := Z.sqrt n in
  round q (e / 2 - 54) (negb (q * q =? n)).

(** Largest integer below or equal to a number. *)
Definition floor (x : double) : Z := Z.shiftl (mant x) (expo x).

(** The literal [0.1]: the binary64 value nearest to one tenth. *)
Definition tenth : double := mk 3602879701896397 (-55).

End Float64.

(** ** Values that can be thrown

    [catch (error)] binds whatever was thrown; the code only reads
    [error.message] from it. *)
Inductive Thrown :=
| ErrorObject (message : string)  (* an [Error], or any object with a message *)
| NoMessage                       (* a value whose [message] is [undefined] *)
| Null
| Undefined.

(** ** The D1 database *)

(** Row identifiers, [`${prefix}_${Date.now()}_${Math.random()...}`]: the
    prefix, the clock reading and the random number the suffix is printed
    from. *)
Inductive RowId := MkRowId (prefix : string) (stamp : Z) (suffix : Float64.double).

(** Timestamp columns hold what [CURRENT_TIMESTAMP] writes, a date and time
    to the second: a number of seconds since the epoch. *)
Record CommandUsageRecord := {
  cu_id : RowId;
  cu_command_name : string;
  cu_server_id : option string;
  cu_user_id : string;
  cu_success : Z;
  cu_execution_time : Z;
  cu_error_message : option string;
  cu_used_at : Z
}.

Record UserLevel := {
  ul_id : RowId;
  ul_user_id : string;
  ul_server_id : string;
  ul_xp : N;
  ul_level : N;
  ul_messages_sent : N;
  ul_last_xp_gain : option Z
}.

Record ServerConfig := {
  sc_server_id : string;
  sc_server_name : string;
  sc_created_at : Z;
  sc_leveling_enabled : Z
}.

Record BotStats := {
  bs_id : string;
  bs_total_servers : Z;
  bs_total_users : Z;
  bs_last_restart : Z;
  bs_recorded_at : Z
}.

Record Database := {
  command_usage : list CommandUsageRecord;
  user_levels : list UserLevel;
  server_configs : list ServerConfig;
  bot_stats : list BotStats
}.

(** The statements the code prepares and runs, with their bound values;
    the last argument of each is the value of [CURRENT_TIMESTAMP]. *)
Inductive Statement :=
| InsertCommandUsage (id : RowId) (command_name : string) (server_id : option string)
    (user_id : string) (success : Z) (execution_time : Z)
    (error_message : option string) (now : Z)
| InsertOrReplaceBotStats (id : string) (total_servers total_users : Z) (now : Z)
| InsertOrIgnoreServerConfig (server_id server_name : string) (now : Z)
| UpdateUserLevel (xp level : N) (user_id server_id : string) (now : Z)
| InsertUserLevel (id : RowId) (user_id server_id : string) (xp : N) (now : Z).

Module SQL.

(** [CURRENT_TIMESTAMP] at a clock reading in milliseconds. *)
Definition CURRENT_TIMESTAMP (clock_ms : Z) : Z := clock_ms / 1000.

Definition is_user_level (user_id server_id : string) (r : UserLevel) : bool :=
  String.eqb (ul_user_id r) user_id && String.eqb (ul_server_id r) server_id.

Definition is_server_config (server_id : string) (r : ServerConfig) : bool :=
  String.eqb (sc_server_id r) server_id.

(** [SELECT * FROM user_levels WHERE user_id = ? AND server_id = ?],
    read with [first()]. *)
Definition select_user_level (user_id server_id : string) (db : Database)
  : option UserLevel :=
  find (is_user_level user_id server_id) (user_levels db).

(** [SELECT * FROM server_configs WHERE server_id = ?], read with
    [first()]. *)
Definition select_server_config (server_id : string) (db : Database)
  : option ServerConfig :=
  find (is_server_config server_id) (server_configs db).

Definition set_command_usage (t : list CommandUsageRecord) (db : Database) :=
  {| command_usage := t; user_levels := user_levels db;
     server_configs := server_configs db; bot_stats := bot_stats db |}.
Definition set_user_levels (t : list UserLevel) (db : Database) :=
  {| command_usage := command_usage db; user_levels := t;
     server_configs := server_configs db; bot_stats := bot_stats db |}.
Definition set_server_configs (t : list ServerConfig) (db : Database) :=
  {| command_usage := command_usage db; user_levels := user_levels db;
     server_configs := t; bot_stats := bot_stats db |}.
Definition set_bot_stats (t : list BotStats) (db : Database) :=
  {| command_usage := command_usage db; user_levels := user_levels db;
     server_configs := server_configs db; bot_stats := t |}.

(** [UPDATE user_levels SET xp = ?, level = ?, messages_sent =
    messages_sent + 1, last_xp_gain = CURRENT_TIMESTAMP WHERE ...] on one
    row. *)
Definition update_user_level (xp level : N) (user_id server_id : string) (now : Z)
    (r : UserLevel) : UserLevel :=
  if is_user_level user_id server_id r then
    {| ul_id := ul_id r; ul_user_id := ul_user_id r; ul_server_id := ul_server_id r;
       ul_xp := xp; ul_level := level;
       ul_messages_sent := (ul_messages_sent r + 1)%N;
       ul_last_xp_gain := Some now |}
  else r.

(** Modelled from the spec: the table declarations are not part of the
    source.  Following section 6 of the specification, [server_configs]
    has [server_id UNIQUE] and [leveling_enabled DEFAULT true], and
    [bot_stats] has [id UNIQUE]; so [INSERT OR IGNORE] skips a row whose
    [server_id] is taken, a new configuration row gets [leveling_enabled
    = 1], and [INSERT OR REPLACE] removes the statistics row with the same
    [id] before it inserts. *)
Definition run (s : Statement) (db : Database) : Database :=
  match s with
  | InsertCommandUsage id command_name server_id user_id success execution_time
      error_message now =>
      set_command_usage
        (command_usage db ++
           [{| cu_id := id; cu_command_name := command_name;
               cu_server_id := server_id; cu_user_id := user_id;
               cu_success := success; cu_execution_time := execution_time;
               cu_error_message := error_message; cu_used_at := now |}]) db
  | InsertOrReplaceBotStats id total_servers total_users now =>
      set_bot_stats
        (filter (fun r => bs_id r ≠ id) (bot_stats db) ++
           [{| bs_id := id; bs_total_servers := total_servers;
               bs_total_users := total_users; bs_last_restart := now;
               bs_recorded_at := now |}]) db
  | InsertOrIgnoreServerConfig server_id server_name now =>
      if existsb (is_server_config server_id) (server_configs db) then db
      else
        set_server_configs
          (server_configs db ++
             [{| sc_server_id := server_id; sc_server_name := server_name;
                 sc_created_at := now; sc_leveling_enabled := 1 |}]) db
  | UpdateUserLevel xp level user_id server_id now =>
      set_user_levels
        (map (update_user_level xp level user_id server_id now) (user_levels db)) db
  | InsertUserLevel id user_id server_id xp now =>
      set_user_levels
        (user_levels db ++
           [{| ul_id := id; ul_user_id := user_id; ul_server_id := server_id;
               ul_xp := xp; ul_level := 0; ul_messages_sent := 1;
               ul_last_xp_gain := Some now |}]) db
  end.

End SQL.

(** ** The world the bot runs in *)

(** What the environment will answer: the readings of the clock (in
    milliseconds; [Date.now()] and the database's [CURRENT_TIMESTAMP] read
    the same clock), the random numbers, and which calls to the database and
    to the platform fail, each in the order of the calls. *)
Record Oracle := {
  clock : nat -> Z;
  random : nat -> Z;
  db_fault : nat -> option Thrown;
  reply_fault : nat -> option Thrown
}.

Record Payload := { content : string; ephemeral : bool }.

Inductive LogLine :=
| CommandHandlerInitialized
| LoggedIn
| JoinedNewServer (name id : string)
| LeftServer (name id : string)
| CommandExecutionError (error : Thrown)
| FailedToLogCommandUsage (error : Thrown)
| FailedToUpdateBotStats (error : Thrown)
| FailedToCreateServerConfig (error : Thrown)
| FailedToGetServerConfig (error : Thrown)
| FailedToAwardXP (error : Thrown).

(** What the bot did, as seen from outside. *)
Inductive Event :=
| Ran (s : Statement)                        (* a statement the database executed *)
| Replied (p : Payload)                      (* [interaction.reply] delivered *)
| FollowedUp (p : Payload)                   (* [interaction.followUp] delivered *)
| MessageReplied (author : string) (newLevel : N)   (* the level-up [message.reply] *)
| HandlerEntered (name : string)
| HandlerLeft (name : string) (thrown : option Thrown)
| PresenceSet
| ConsoleLog (l : LogLine)
| ConsoleError (l : LogLine).

(** The state: the database, the [replied] and [deferred] flags of the
    interaction being handled, the events so far (latest first) and how far
    each answer list of the oracle has been read. *)
Record World := {
  w_oracle : Oracle;
  w_db : Database;
  w_replied : bool;
  w_deferred : bool;
  w_trace : list Event;
  w_clk : nat;
  w_rnd : nat;
  w_dbio : nat;
  w_rpio : nat
}.

Definition initial (o : Oracle) (db : Database) : World :=
  {| w_oracle := o; w_db := db; w_replied := false; w_deferred := false;
     w_trace := []; w_clk := 0; w_rnd := 0; w_dbio := 0; w_rpio := 0 |}.

(** The events in the order they happened. *)
Definition history (w : World) : list Event := rev (w_trace w).

Definition set_db (db : Database) (w : World) : World :=
  {| w_oracle := w_oracle w; w_db := db; w_replied := w_replied w;
     w_deferred := w_deferred w; w_trace := w_trace w; w_clk := w_clk w;
     w_rnd := w_rnd w; w_dbio := w_dbio w; w_rpio := w_rpio w |}.
Definition set_flags (replied deferred : bool) (w : World) : World :=
  {| w_oracle := w_oracle w; w_db := w_db w; w_replied := replied;
     w_deferred := deferred; w_trace := w_trace w; w_clk := w_clk w;
     w_rnd := w_rnd w; w_dbio := w_dbio w; w_rpio := w_rpio w |}.
Definition emit (e : Event) (w : World) : World :=
  {| w_oracle := w_oracle w; w_db := w_db w; w_replied := w_replied w;
     w_deferred := w_deferred w; w_trace := e :: w_trace w; w_clk := w_clk w;
     w_rnd := w_rnd w; w_dbio := w_dbio w; w_rpio := w_rpio w |}.
Definition next_clk (w : World) : World :=
  {| w_oracle := w_oracle w; w_db := w_db w; w_replied := w_replied w;
     w_deferred := w_deferred w; w_trace := w_trace w; w_clk := S (w_clk w);
     w_rnd := w_rnd w; w_dbio := w_dbio w; w_rpio := w_rpio w |}.
Definition next_rnd (w : World) : World :=
  {| w_oracle := w_oracle w; w_db := w_db w; w_replied := w_replied w;
     w_deferred := w_deferred w; w_trace := w_trace w; w_clk := w_clk w;
     w_rnd := S (w_rnd w); w_dbio := w_dbio w; w_rpio := w_rpio w |}.
Definition next_dbio (w : World) : World :=
  {| w_oracle := w_oracle w; w_db := w_db w; w_replied := w_replied w;
     w_deferred := w_deferred w; w_trace := w_trace w; w_clk := w_clk w;
     w_rnd := w_rnd w; w_dbio := S (w_dbio w); w_rpio := w_rpio w |}.
Definition next_rpio (w : World) : World :=
  {| w_oracle := w_oracle w; w_db := w_db w; w_replied := w_replied w;
     w_deferred := w_deferred w; w_trace := w_trace w; w_clk := w_clk w;
     w_rnd := w_rnd w; w_dbio := w_dbio w; w_rpio := S (w_rpio w) |}.

(** ** Computations: state and exceptions *)

Inductive Completion (A : Type) :=
| Normal (a : A)
| Abrupt (e : Thrown).
Arguments Normal {A} a.
Arguments Abrupt {A} e.

Definition Js (A : Type) : Type := World -> Completion A * World.

#[export] Instance Js_ret : MRet Js := fun A a w => (Normal a, w).
#[export] Instance Js_bind : MBind Js := fun A B f m w =>
  match m w with
  | (Normal a, w') => f a w'
  | (Abrupt e, w') => (Abrupt e, w')
  end.

Definition throw {A} (e : Thrown) : Js A := fun w => (Abrupt e, w).

(** [try { body } catch (error) { handler error }] *)
Definition try_catch {A} (body : Js A) (handler : Thrown -> Js A) : Js A := fun w =>
  match body w with
  | (Normal a, w') => (Normal a, w')
  | (Abrupt e, w') => handler e w'
  end.

Definition exec {A} (m : Js A) (w : World) : World := snd (m w).
Definition completion {A} (m : Js A) (w : World) : Completion A := fst (m w).

(** ** JavaScript built-ins *)
Module Math.

Definition floor := Float64.floor.
Definition sqrt := Float64.sqrt.

(** A value of [Math.random()] is a multiple [k / 2^53] of [2^-53] in
    [[0, 1)] (engines build it from at most 53 random bits); [draw]
    reduces the oracle's integer to such a [k]. *)
Definition draw (k : Z) : Z := k mod 2 ^ 53.
Definition of_draw (k : Z) : Float64.double := Float64.mk (draw k) (-53).

Definition random : Js Float64.double := fun w =>
  (Normal (of_draw (random (w_oracle w) (w_rnd w))), next_rnd w).

End Math.

Module Date.

Definition now : Js Z := fun w =>
  (Normal (clock (w_oracle w) (w_clk w)), next_clk w).

(** [new Date(text).getTime()] on a stored timestamp, in milliseconds.  The
    text is the one [CURRENT_TIMESTAMP] wrote, read back in the time zone it
    was written in (UTC on both sides in a Worker). *)
Definition getTime (stamp : Z) : Z := 1000 * stamp.

End Date.

Module console.

Definition log (l : LogLine) : Js unit := fun w => (Normal tt, emit (ConsoleLog l) w).
Definition error (l : LogLine) : Js unit := fun w => (Normal tt, emit (ConsoleError l) w).

End console.

(** [error.message]: a property read, which raises a [TypeError] on [null]
    and [undefined]; [undefined] as the result is written [None]. *)
Definition message_of (error : Thrown) : Js (option string) :=
  match error with
  | ErrorObject m => mret (Some m)
  | NoMessage => mret None
  | Null => throw (ErrorObject "Cannot read properties of null (reading 'message')")
  | Undefined =>
      throw (ErrorObject "Cannot read properties of undefined (reading 'message')")
  end.

(** ** The database binding [env.DB] *)
Module DB.

(** [prepare(sql).bind(...).run()]: the call fails as the oracle says, and
    then nothing is written; otherwise the database executes the statement
    at its current clock reading. *)
Definition run (stmt : Z -> Statement) : Js unit := fun w =>
  match db_fault (w_oracle w) (w_dbio w) with
  | Some e => (Abrupt e, next_dbio w)
  | None =>
      let s := stmt (SQL.CURRENT_TIMESTAMP (clock (w_oracle w) (w_clk w))) in
      (Normal tt,
       emit (Ran s) (set_db (SQL.run s (w_db w)) (next_clk (next_dbio w))))
  end.

(** [prepare(sql).bind(...).first()] *)
Definition first {A} (query : Database -> option A) : Js (option A) := fun w =>
  match db_fault (w_oracle w) (w_dbio w) with
  | Some e => (Abrupt e, next_dbio w)
  | None => (Normal (query (w_db w)), next_dbio w)
  end.

End DB.

(** ** Interactions, messages, guilds *)

Record Interaction := {
  commandName : string;
  guildId : option string;
  user_id : string;
  createdTimestamp : Z;
  isChatInputCommand : bool
}.

Record Message := {
  author_id : string;
  author_bot : bool;
  guild : option string   (* [message.guild.id], when there is a guild *)
}.

Record Guild := { guild_id : string; guild_name : string; memberCount : Z }.

Module interaction.

(** [interaction.reply(p)]: fails as the oracle says; when it succeeds the
    payload is delivered and [replied] is set. *)
Definition reply (p : Payload) : Js unit := fun w =>
  match reply_fault (w_oracle w) (w_rpio w) with
  | Some e => (Abrupt e, next_rpio w)
  | None => (Normal tt, emit (Replied p) (set_flags true (w_deferred w) (next_rpio w)))
  end.

Definition followUp (p : Payload) : Js unit := fun w =>
  match reply_fault (w_oracle w) (w_rpio w) with
  | Some e => (Abrupt e, next_rpio w)
  | None => (Normal tt, emit (FollowedUp p) (next_rpio w))
  end.

Definition replied : Js bool := fun w => (Normal (w_replied w), w).
Definition deferred : Js bool := fun w => (Normal (w_deferred w), w).

End interaction.

(** ** Commands

    A command's [execute] is any code: from the interaction, the database and
    the two flags it finds, it leaves a database and flags behind and either
    returns or throws. *)
Record HandlerRun := {
  hr_db : Database;
  hr_replied : bool;
  hr_deferred : bool;
  hr_thrown : option Thrown
}.

Record Command := {
  execute : Interaction -> Database -> bool -> bool -> HandlerRun
}.

Definition run_command (command : Command) (i : Interaction) : Js unit := fun w =>
  let r := execute command i (w_db w) (w_replied w) (w_deferred w) in
  let w' := emit (HandlerLeft (commandName i) (hr_thrown r))
              (set_flags (hr_replied r) (hr_deferred r)
                 (set_db (hr_db r) (emit (HandlerEntered (commandName i)) w))) in
  match hr_thrown r with
  | None => (Normal tt, w')
  | Some e => (Abrupt e, w')
  end.

(** ** The leveling formulas *)

(** [Math.floor(Math.random() * 15) + 10], line 189, on the random number
    [r] that [Math.random()] returned. *)
Definition xpToAward (r : Float64.double) : Z :=
  Math.floor (Float64.mul r (Float64.of_Z 15)) + 10.

(** [Math.floor(0.1 * Math.sqrt(newXP))], line 205. *)
Definition levelOf (xp : N) : N :=
  Z.to_N (Math.floor (Float64.mul Float64.tenth (Math.sqrt (Float64.of_N xp)))).

(** [existing.xp + xpToAward], line 204: an addition of two numbers. *)
Definition addXP (xp : N) (delta : Z) : N :=
  Z.to_N (Float64.floor (Float64.add (Float64.of_N xp) (Float64.of_Z delta))).

(** ** [class CommandHandler] *)
Module CommandHandler.

(** [this.commands], a [Collection] from names to commands. *)
Record t := { commands : gmap string Command }.

Definition constructor : t := {| commands := ∅ |}.

(** Lines 9-14. *)
Definition loadCommands : Js unit := console.log CommandHandlerInitialized.

Definition registerCommand (name : string) (command : Command) (this : t) : t :=
  {| commands := <[name := command]> (commands this) |}.

(** Lines 46-66. *)
Definition logCommandUsage (interaction : Interaction) (success : bool)
    (errorMessage : option string) : Js unit :=
  try_catch
    (stamp ← Date.now;
     suffix ← Math.random;
     let id := MkRowId "cmd" stamp suffix in
     now ← Date.now;
     let executionTime := now - createdTimestamp interaction in
     DB.run (InsertCommandUsage id (commandName interaction) (guildId interaction)
               (user_id interaction) (if success then 1 else 0) executionTime
               errorMessage))
    (fun error => console.error (FailedToLogCommandUsage error)).

Definition notFound : Payload :=
  {| content := "Command not found!"; ephemeral := true |}.

Definition errorMessage : Payload :=
  {| content := "There was an error executing this command!"; ephemeral := true |}.

(** Lines 16-44. *)
Definition handleCommand (this : t) (interaction : Interaction) : Js unit :=
  match commands this !! commandName interaction with
  | None => interaction.reply notFound
  | Some command =>
      try_catch
        (logCommandUsage interaction true None;;
         run_command command interaction)
        (fun error =>
           console.error (CommandExecutionError error);;
           message ← message_of error;
           logCommandUsage interaction false message;;
           replied ← interaction.replied;
           deferred ← interaction.deferred;
           if replied || deferred then interaction.followUp errorMessage
           else interaction.reply errorMessage)
  end.

End CommandHandler.

(** ** [class EventHandler] *)
Module EventHandler.

(** [this.client.guilds.cache] and [this.commandHandler]. *)
Record t := { guilds_cache : list Guild; commandHandler : CommandHandler.t }.

(** Lines 146-159. *)
Definition updateBotStats (this : t) : Js unit :=
  try_catch
    (let id := "main_stats" in
     let totalServers := Z.of_nat (length (guilds_cache this)) in
     let totalUsers :=
       fold_left (fun acc guild => acc + memberCount guild) (guilds_cache this) 0 in
     DB.run (InsertOrReplaceBotStats id totalServers totalUsers))
    (fun error => console.error (FailedToUpdateBotStats error)).

(** Lines 161-170. *)
Definition createServerConfig (guild : Guild) : Js unit :=
  try_catch
    (DB.run (InsertOrIgnoreServerConfig (guild_id guild) (guild_name guild)))
    (fun error => console.error (FailedToCreateServerConfig error)).

(** Lines 172-183. *)
Definition getServerConfig (serverId : string) : Js (option ServerConfig) :=
  try_catch
    (DB.first (SQL.select_server_config serverId))
    (fun error => console.error (FailedToGetServerConfig error);; mret None).

(** [message.guild.id], a property read on [message.guild]. *)
Definition guild_id_of (message : Message) : Js string :=
  match guild message with
  | Some id => mret id
  | None => throw (ErrorObject "Cannot read properties of null (reading 'id')")
  end.

(** The level-up [message.reply(...)], line 215.  The call is not
    awaited: a failure of the delivery reaches neither the surrounding
    [try] nor the caller. *)
Definition message_reply (author : string) (newLevel : N) : Js unit := fun w =>
  (Normal tt, emit (MessageReplied author newLevel) w).

(** Lines 185-228.  [return] inside the cooldown test leaves the
    function: everything after it is the other branch. *)
Definition awardXP (message : Message) : Js unit :=
  try_catch
    (let userId := author_id message in
     serverId ← guild_id_of message;
     r ← Math.random;
     let xpToAward := xpToAward r in
     existing ← DB.first (SQL.select_user_level userId serverId);
     cooldown ←
       (match existing with
        | Some row =>
            match ul_last_xp_gain row with
            | Some last_xp_gain =>
                let lastGain := Date.getTime last_xp_gain in
                now ← Date.now;
                mret (now - lastGain <? 60000)
            | None => mret false
            end
        | None => mret false
        end : Js bool);
     if (cooldown : bool) then mret tt
     else
       match existing with
       | Some row =>
           let newXP := addXP (ul_xp row) xpToAward in
           let newLevel := levelOf newXP in
           let leveledUp := (ul_level row <? newLevel)%N in
           DB.run (UpdateUserLevel newXP newLevel userId serverId);;
           if leveledUp then message_reply userId newLevel else mret tt
       | None =>
           stamp ← Date.now;
           suffix ← Math.random;
           let id := MkRowId "lvl" stamp suffix in
           DB.run (InsertUserLevel id userId serverId (Z.to_N xpToAward))
       end)
    (fun error => console.error (FailedToAwardXP error)).

(** The listeners that [setupEvents] registers, lines 82-144. *)

(** [this.client.user.setPresence(...)]. *)
Definition setPresence : Js unit := fun w => (Normal tt, emit PresenceSet w).

Definition on_ready (this : t) : Js unit :=
  console.log LoggedIn;;
  updateBotStats this;;
  setPresence.

Definition on_interactionCreate (this : t) (interaction : Interaction) : Js unit :=
  if isChatInputCommand interaction
  then CommandHandler.handleCommand (commandHandler this) interaction
  else mret tt.

Definition on_guildCreate (this : t) (guild : Guild) : Js unit :=
  console.log (JoinedNewServer (guild_name guild) (guild_id guild));;
  createServerConfig guild;;
  updateBotStats this.

Definition on_guildDelete (this : t) (guild : Guild) : Js unit :=
  console.log (LeftServer (guild_name guild) (guild_id guild));;
  updateBotStats this.

Definition on_messageCreate (message : Message) : Js unit :=
  if author_bot message then mret tt
  else
    match guild message with
    | None => mret tt
    | Some guild_id =>
        config ← getServerConfig guild_id;
        match config with
        | None => mret tt
        | Some config =>
            if sc_leveling_enabled config =? 0 then mret tt
            else awardXP message
        end
    end.

End EventHandler.

(** * Properties *)

(** ** Reading a run *)

(** The database accepts every call. *)
Definition db_available (o : Oracle) : Prop := forall n, db_fault o n = None.

(** The platform accepts every reply and follow-up. *)
Definition replies_accepted (o : Oracle) : Prop := forall n, reply_fault o n = None.


Definition nullish (e : Thrown) : bool :=
  match e with
  | Null | Undefined => true
  | ErrorObject _ | NoMessage => false
  end.

(** The steps of one dispatch that matter for the audit log: a usage record
    written (with its [success] and [error_message] columns), the handler
    entered, the handler left. *)
Inductive Milestone :=
| UsageWritten (success : Z) (error_message : option string)
| Entered
| Left.

Definition milestone (e : Event) : option Milestone :=
  match e with
  | Ran (InsertCommandUsage _ _ _ _ success _ error_message _) =>
      Some (UsageWritten success error_message)
  | HandlerEntered _ => Some Entered
  | HandlerLeft _ _ => Some Left
  | _ => None
  end.

Definition milestones (h : list Event) : list Milestone := omap milestone h.

Definition is_usage_written (m : Milestone) : bool :=
  match m with UsageWritten _ _ => true | _ => false end.

(** The usage records written in a run. *)
Definition usage_written (h : list Event) : list Milestone :=
  List.filter is_usage_written (milestones h).

(** The replies and follow-ups the invoker received in a run. *)
Definition notice (e : Event) : option Event :=
  match e with
  | Replied _ | FollowedUp _ => Some e
  | _ => None
  end.

Definition notices (h : list Event) : list Event := omap notice h.

(** What [command.execute] does when the dispatcher calls it in world [w]. *)
Definition handler_run (command : Command) (i : Interaction) (w : World) : HandlerRun :=
  let w1 := exec (CommandHandler.logCommandUsage i true None) w in
  execute command i (w_db w1) (w_replied w1) (w_deferred w1).

(** An award, as the database recorded it: the user, the server and the
    [last_xp_gain] written. *)
Definition award (e : Event) : option (string * string * Z) :=
  match e with
  | Ran (UpdateUserLevel _ _ user_id server_id now) => Some (user_id, server_id, now)
  | Ran (InsertUserLevel _ user_id server_id _ now) => Some (user_id, server_id, now)
  | _ => None
  end.

Definition awards (h : list Event) : list (string * string * Z) := omap award h.

(** [awardXP] for one message after the other, each awaited before the
    next. *)
Fixpoint award_all (messages : list Message) : Js unit :=
  match messages with
  | [] => mret tt
  | message :: rest => EventHandler.awardXP message;; award_all rest
  end.




(** Modelled from the spec: the [UNIQUE] constraint on
    [server_configs.server_id] (section 6 of the specification; the table
    declarations are not part of the source), as a property of a database. *)
Definition server_id_unique (db : Database) : Prop :=
  NoDup (map sc_server_id (server_configs db)).

(** A number as a value of the Standard Library's specification of
    IEEE-754 arithmetic, at the binary64 parameters. *)
Definition to_spec (x : Float64.double) : spec_float :=
  binary_normalize 53 1024 (Float64.mant x) (Float64.expo x) false.

(** [0, 1, ..., n - 1] *)
Definition below (n : N) : list N := map N.of_nat (seq 0 (N.to_nat n)).

(** Totals, small and beyond 53 bits. *)
Definition sample_totals : list N :=
  [0; 1; 99; 100; 101; 9999; 10000; 999999999999; 1000000000000;
   4503599627370495; 9007199254740991; 9007199254740992; 9007199254740993;
   9007199254740994; 9007199254740995; 18014398509481983]%N.

(** Random numbers around every step of the award, and the two extremes. *)
Definition sample_draws : list Z :=
  [0; 1; 2 ^ 52; 2 ^ 53 - 2; 2 ^ 53 - 1]
  ++ flat_map (fun i => let k := i * 2 ^ 53 / 15 in [k - 1; k; k + 1; k + 2])
       (map Z.of_nat (seq 1 14)).

(** The first claim of the specification's audit rule, as it is worded: one
    usage record per dispatch, written once the handler has finished or
    thrown. *)
Definition claimed_single_record (ms : list Milestone) (success : Z)
    (error_message : option string) : Prop :=
  ms = [Entered; Left; UsageWritten success error_message].

(** ** Sample inputs *)
Module Sample.

(** A clock that advances one second per reading, the random number one
    half, and no failure anywhere. *)
Definition calm : Oracle :=
  {| clock := fun n => 1700000000000 + 1000 * Z.of_nat n;
     random := fun _ => 2 ^ 52;
     db_fault := fun _ => None;
     reply_fault := fun _ => None |}.

(** The same, but the platform rejects every reply. *)
Definition reply_down : Oracle :=
  {| clock := clock calm; random := random calm; db_fault := db_fault calm;
     reply_fault := fun _ => Some (ErrorObject "Unknown interaction") |}.

(** The same as [calm], but the database rejects every call. *)
Definition db_down : Oracle :=
  {| clock := clock calm; random := random calm;
     db_fault := fun _ => Some (ErrorObject "D1_ERROR");
     reply_fault := reply_fault calm |}.

Definition empty_db : Database :=
  {| command_usage := []; user_levels := []; server_configs := []; bot_stats := [] |}.

(** [execute] that throws [e] and touches nothing. *)
Definition throwing (e : Thrown) : Command :=
  {| execute := fun _ db replied deferred =>
       {| hr_db := db; hr_replied := replied; hr_deferred := deferred;
          hr_thrown := Some e |} |}.

(** [execute] that replies and returns. *)
Definition ping : Command :=
  {| execute := fun _ db _ deferred =>
       {| hr_db := db; hr_replied := true; hr_deferred := deferred;
          hr_thrown := None |} |}.

(** [execute] that defers the reply and then throws [new Error("boom")]. *)
Definition defer_then_boom : Command :=
  {| execute := fun _ db replied _ =>
       {| hr_db := db; hr_replied := replied; hr_deferred := true;
          hr_thrown := Some (ErrorObject "boom") |} |}.

Definition registry : CommandHandler.t :=
  CommandHandler.registerCommand "ping" ping
    (CommandHandler.registerCommand "boom" (throwing (ErrorObject "boom"))
       (CommandHandler.registerCommand "late" defer_then_boom
          (CommandHandler.registerCommand "void" (throwing Undefined)
             CommandHandler.constructor))).

Definition slash (name : string) : Interaction :=
  {| commandName := name; guildId := Some "guild-1"; user_id := "user-1";
     createdTimestamp := 1699999999000; isChatInputCommand := true |}.

Definition message_1 : Message :=
  {| author_id := "user-1"; author_bot := false; guild := Some "guild-1" |}.

(** The random number whose award is [d]: just above [(d - 10) / 15]. *)
Definition draw_for (d : Z) : Z := (2 * (d - 10) + 1) * 2 ^ 52 / 15.

(** [calm] with the random number that awards 20 XP. *)
Definition twenty : Oracle :=
  {| clock := clock calm; random := fun _ => draw_for 20;
     db_fault := db_fault calm; reply_fault := reply_fault calm |}.

(** A clock that advances 61 seconds per reading. *)
Definition slow : Oracle :=
  {| clock := fun n => 1700000000000 + 61000 * Z.of_nat n; random := random calm;
     db_fault := db_fault calm; reply_fault := reply_fault calm |}.

Definition row_1 (xp level : N) (last_xp_gain : option Z) : UserLevel :=
  {| ul_id := MkRowId "lvl" 1690000000000 (Math.of_draw 1);
     ul_user_id := "user-1"; ul_server_id := "guild-1";
     ul_xp := xp; ul_level := level; ul_messages_sent := 7;
     ul_last_xp_gain := last_xp_gain |}.

Definition config_1 : ServerConfig :=
  {| sc_server_id := "guild-1"; sc_server_name := "Guild One";
     sc_created_at := 1690000000; sc_leveling_enabled := 1 |}.

(** One server with leveling enabled and one row for [user-1] in it. *)
Definition db_with (row : UserLevel) : Database :=
  {| command_usage := []; user_levels := [row]; server_configs := [config_1];
     bot_stats := [] |}.

Definition guild_1 : Guild :=
  {| guild_id := "guild-1"; guild_name := "Guild One"; memberCount := 42 |}.

Definition guild_1_renamed : Guild :=
  {| guild_id := "guild-1"; guild_name := "Renamed"; memberCount := 43 |}.

Definition bot : EventHandler.t :=
  {| EventHandler.guilds_cache := [guild_1]; EventHandler.commandHandler := registry |}.

End Sample.

(** ** Unfolding computations *)

Ltac js_unfold :=
  unfold exec, completion, history,
    CommandHandler.handleCommand, CommandHandler.logCommandUsage,
    EventHandler.awardXP, EventHandler.on_messageCreate, EventHandler.getServerConfig,
    EventHandler.on_guildCreate, EventHandler.createServerConfig,
    EventHandler.updateBotStats, EventHandler.guild_id_of, EventHandler.message_reply,
    run_command, message_of, try_catch, throw, mbind, Js_bind, mret, Js_ret,
    DB.run, DB.first, Date.now, Math.random, console.log, console.error,
    interaction.reply, interaction.followUp, interaction.replied, interaction.deferred
    in *.

(** ** [class DatabaseUtils]

    The utilities read three tables of the database they are constructed
    with and write none.  Each method makes one call, which fails or answers;
    a method's outcome is the value it returns together with the errors it
    printed with [console.error('Database error:', error)]. *)
Module DatabaseUtils.

(** The columns the statements name. *)
Record BlacklistEntry := { bl_type : string; bl_target_id : string }.
Record GlobalConfigEntry := { gc_key : string; gc_value : option string }.

(** [this.db]: the tables, and the failure of the next call if it fails. *)
Record D1 := {
  d1_server_configs : list ServerConfig;
  d1_blacklist : list BlacklistEntry;
  d1_global_config : list GlobalConfigEntry;
  d1_fault : option Thrown
}.

Record t := { db : D1 }.

Definition constructor (db : D1) : t := {| db := db |}.

(** [prepare(sql).bind(...).first()] *)
Definition first {A} (d : D1) (query : D1 -> option A) : Thrown + option A :=
  match d1_fault d with
  | Some e => inl e
  | None => inr (query d)
  end.

Definition is_blacklist_entry (type targetId : string) (r : BlacklistEntry) : bool :=
  String.eqb (bl_type r) type && String.eqb (bl_target_id r) targetId.

Definition is_global_config (key : string) (r : GlobalConfigEntry) : bool :=
  String.eqb (gc_key r) key.

(** Lines 237-247. *)
Definition getServerConfig (this : t) (serverId : string)
  : option ServerConfig * list Thrown :=
  match first (db this)
          (fun d => find (SQL.is_server_config serverId) (d1_server_configs d)) with
  | inr result => (result, [])
  | inl error => (None, [error])
  end.

(** Lines 249-259; [!!result] is whether a row came back. *)
Definition isBlacklisted (this : t) (type targetId : string) : bool * list Thrown :=
  match first (db this)
          (fun d => find (is_blacklist_entry type targetId) (d1_blacklist d)) with
  | inr result => (match result with Some _ => true | None => false end, [])
  | inl error => (false, [error])
  end.

(** Lines 261-271; [result ? result.value : null]. *)
Definition getGlobalConfig (this : t) (key : string) : option string * list Thrown :=
  match first (db this)
          (fun d => find (is_global_config key) (d1_global_config d)) with
  | inr result => (match result with Some row => gc_value row | None => None end, [])
  | inl error => (None, [error])
  end.

End DatabaseUtils.

(** ** More sample inputs *)
Module Scenario.

(** [Sample.calm], but the database rejects its first call only. *)
Definition first_call_fails : Oracle :=
  {| clock := clock Sample.calm; random := random Sample.calm;
     db_fault := fun n => match n with
                          | O => Some (ErrorObject "D1_ERROR")
                          | S _ => None
                          end;
     reply_fault := reply_fault Sample.calm |}.

(** [Sample.calm], but the database rejects its second call only. *)
Definition second_call_fails : Oracle :=
  {| clock := clock Sample.calm; random := random Sample.calm;
     db_fault := fun n => match n with
                          | 1%nat => Some (ErrorObject "D1_ERROR")
                          | _ => None
                          end;
     reply_fault := reply_fault Sample.calm |}.

Definition guild_2 : Guild :=
  {| guild_id := "guild-2"; guild_name := "Guild Two"; memberCount := 8 |}.

Definition bot_in_two : EventHandler.t :=
  {| EventHandler.guilds_cache := [Sample.guild_1; guild_2];
     EventHandler.commandHandler := Sample.registry |}.

Definition stale_stats : BotStats :=
  {| bs_id := "main_stats"; bs_total_servers := 1; bs_total_users := 42;
     bs_last_restart := 1690000000; bs_recorded_at := 1690000000 |}.

Definition db_with_stats : Database :=
  {| command_usage := []; user_levels := []; server_configs := [Sample.config_1];
     bot_stats := [stale_stats] |}.

Definition message_by_bot : Message :=
  {| author_id := "bot-9"; author_bot := true; guild := Some "guild-1" |}.

Definition direct_message : Message :=
  {| author_id := "user-1"; author_bot := false; guild := None |}.

Definition message_2 : Message :=
  {| author_id := "user-2"; author_bot := false; guild := Some "guild-1" |}.

Definition disabled_config : ServerConfig :=
  {| sc_server_id := "guild-1"; sc_server_name := "Guild One";
     sc_created_at := 1690000000; sc_leveling_enabled := 0 |}.

Definition db_leveling_off : Database :=
  {| command_usage := []; user_levels := [Sample.row_1 100 1 None];
     server_configs := [disabled_config]; bot_stats := [] |}.

Definition utils : DatabaseUtils.t :=
  DatabaseUtils.constructor
    {| DatabaseUtils.d1_server_configs := [Sample.config_1];
       DatabaseUtils.d1_blacklist :=
         [{| DatabaseUtils.bl_type := "user"; DatabaseUtils.bl_target_id := "user-13" |}];
       DatabaseUtils.d1_global_config :=
         [{| DatabaseUtils.gc_key := "motd"; DatabaseUtils.gc_value := Some "hello" |};
          {| DatabaseUtils.gc_key := "unset"; DatabaseUtils.gc_value := None |}];
       DatabaseUtils.d1_fault := None |}.

Definition utils_down : DatabaseUtils.t :=
  DatabaseUtils.constructor
    {| DatabaseUtils.d1_server_configs := DatabaseUtils.d1_server_configs (DatabaseUtils.db utils);
       DatabaseUtils.d1_blacklist := DatabaseUtils.d1_blacklist (DatabaseUtils.db utils);
       DatabaseUtils.d1_global_config := DatabaseUtils.d1_global_config (DatabaseUtils.db utils);
       DatabaseUtils.d1_fault := Some (ErrorObject "D1_ERROR") |}.

End Scenario.

(** The statistics row that [updateBotStats] writes at time [now]. *)
Definition stats_row (this : EventHandler.t) (now : Z) : BotStats :=
  {| bs_id := "main_stats";
     bs_total_servers := Z.of_nat (length (EventHandler.guilds_cache this));
     bs_total_users :=
       fold_left (fun acc guild => acc + memberCount guild) (EventHandler.guilds_cache this) 0;
     bs_last_restart := now;
     bs_recorded_at := now |}.

(** Whether a statistics row is the singleton row. *)
Definition is_main_stats (r : BotStats) : bool := String.eqb (bs_id r) "main_stats".

(** The key of a level row, and that no two rows share one. *)
Definition user_level_key (r : UserLevel) : string * string :=
  (ul_user_id r, ul_server_id r).

Definition one_row_per_pair (db : Database) : Prop :=
  List.NoDup (map user_level_key (user_levels db)).

(** * Proofs *)

(** ** The award is between 10 and 24 *)

Lemma draw_range k : 0 <= Math.draw k < 2 ^ 53.
Proof. unfold Math.draw. apply Z.mod_pos_bound. lia. Qed.

Lemma excess_le n b : 0 <= n < 2 ^ (53 + b) -> 0 <= b -> 0 <= Float64.excess n <= b.
Proof.
  intros [Hn Hlt] Hb. unfold Float64.excess. split; [lia|].
  destruct (Z.eq_dec n 0) as [->|Hne]; [simpl; lia|].
  assert (Z.log2 n < 53 + b) by (apply Z.log2_lt_pow2; lia). lia.
Qed.

Lemma rne_cases n s st :
  0 < s ->
  Float64.rne n s st = n / 2 ^ s \/
  (Float64.rne n s st = n / 2 ^ s + 1 /\ 2 ^ (s - 1) <= n mod 2 ^ s).
Proof.
  intros Hs. unfold Float64.rne.
  destruct (Z.leb_spec s 0) as [?|_]; [lia|].
  destruct (Z.ltb_spec (n mod 2 ^ s) (2 ^ (s - 1))) as [?|Hhalf]; [now left|].
  destruct (_ || _); [now right|].
  destruct (Z.even _); [now left | now right].
Qed.

Lemma floor_neg_expo m e : e <= 0 -> Float64.floor (Float64.mk m e) = m / 2 ^ (- e).
Proof.
  intros He. unfold Float64.floor. cbn [Float64.mant Float64.expo].
  destruct (Z.eq_dec e 0) as [->|Hne].
  - now rewrite Z.shiftl_0_r, Z.div_1_r.
  - rewrite Z.shiftl_div_pow2 by lia. reflexivity.
Qed.

Lemma xpToAward_bounds k : 10 <= xpToAward (Math.of_draw k) <= 24.
Proof.
  unfold xpToAward, Math.floor, Float64.mul, Float64.round, Math.of_draw.
  cbn [Float64.mant Float64.expo].
  pose proof (draw_range k) as Hk. set (d := Math.draw k) in *.
  change (Float64.mant (Float64.of_Z 15)) with 15.
  change (Float64.expo (Float64.of_Z 15)) with 0.
  assert (Hn : 0 <= d * 15 < 2 ^ (53 + 4)) by lia.
  pose proof (excess_le _ _ Hn ltac:(lia)) as Hs.
  assert (Hlog : Float64.excess (d * 15) = 0 -> d * 15 < 2 ^ 53).
  { unfold Float64.excess. intros Hs0.
    destruct (Z.eq_dec (d * 15) 0) as [->|Hne]; [lia|].
    apply Z.log2_lt_pow2; lia. }
  set (s := Float64.excess (d * 15)) in *.
  rewrite floor_neg_expo by lia.
  assert (Hcase : s = 0 \/ s = 1 \/ s = 2 \/ s = 3 \/ s = 4) by lia.
  destruct (Z.eq_dec s 0) as [E|E].
  - rewrite E. specialize (Hlog E). unfold Float64.rne. cbn [Z.leb Z.compare].
    change (- (-53 + 0 + 0)) with 53.
    assert (d * 15 / 2 ^ 53 = 0) by (apply Z.div_small; lia). lia.
  - destruct (rne_cases (d * 15) s false ltac:(lia)) as [->|[-> Hup]];
      destruct Hcase as [?|[?|[?|[?|?]]]]; subst s; try lia;
      match goal with H : Float64.excess _ = ?v |- _ => rewrite H in * end;
      cbn [Z.add Z.opp Z.sub Z.pos_sub Pos.pred_double Pos.add Pos.succ] in *;
      Z.to_euclidean_division_equations; lia.
Qed.

(** ** The arithmetic against the Standard Library's IEEE-754 specification *)

Lemma award_arithmetic_conforms :
  forallb (fun k =>
             SFeqb (to_spec (Float64.mul (Math.of_draw k) (Float64.of_Z 15)))
               (SFmul 53 1024 (to_spec (Math.of_draw k)) (to_spec (Float64.of_Z 15))))
    sample_draws = true.
Proof. vm_compute. reflexivity. Qed.

Lemma level_arithmetic_conforms :
  forallb (fun xp =>
             SFeqb (to_spec (Float64.mul Float64.tenth (Math.sqrt (Float64.of_N xp))))
               (SFmul 53 1024 (to_spec Float64.tenth)
                  (SFsqrt 53 1024 (to_spec (Float64.of_N xp)))))
    (below 4000 ++ sample_totals) = true.
Proof. vm_compute. reflexivity. Qed.

Lemma total_arithmetic_conforms :
  forallb (fun xp =>
             forallb (fun delta =>
                        SFeqb (to_spec (Float64.add (Float64.of_N xp) (Float64.of_Z delta)))
                          (SFadd 53 1024 (to_spec (Float64.of_N xp))
                             (to_spec (Float64.of_Z delta))))
               [10; 17; 24])
    (below 2000 ++ sample_totals) = true.
Proof. vm_compute. reflexivity. Qed.

(** On the totals a user reaches in practice, the level is the exact
    [floor(sqrt(xp) / 10)]. *)
Lemma levelOf_exact xp :
  (xp < 10000)%N -> levelOf xp = Z.to_N (Z.sqrt (Z.of_N xp) / 10).
Proof.
  intros Hlt.
  assert (Hall : forallb (fun x => (levelOf x =? Z.to_N (Z.sqrt (Z.of_N x) / 10))%N)
                   (below 10000) = true) by (vm_compute; reflexivity).
  rewrite forallb_forall in Hall. apply N.eqb_eq, Hall.
  unfold below. apply in_map_iff. exists (N.to_nat xp). split; [apply N2Nat.id|].
  apply in_seq. lia.
Qed.

Lemma history_emit e w : history (emit e w) = history w ++ [e].
Proof. reflexivity. Qed.

(** ** The audit log of a dispatch *)

Lemma logCommandUsage_returns i success msg w :
  completion (CommandHandler.logCommandUsage i success msg) w = Normal tt.
Proof. js_unfold. cbn. destruct (db_fault _ _); reflexivity. Qed.

Lemma logCommandUsage_history i success msg w :
  db_fault (w_oracle w) (w_dbio w) = None ->
  milestones (history (exec (CommandHandler.logCommandUsage i success msg) w))
  = milestones (history w) ++ [UsageWritten (if success then 1 else 0) msg].
Proof.
  intros Hok. js_unfold. cbn. rewrite Hok. cbn.
  unfold milestones. rewrite omap_app. reflexivity.
Qed.

(** The world in which the [catch] block of [handleCommand] starts (or in
    which the dispatch ends, when the handler returns). *)
Lemma handleCommand_resolved this i command w :
  CommandHandler.commands this !! commandName i = Some command ->
  let w1 := exec (CommandHandler.logCommandUsage i true None) w in
  let r := handler_run command i w in
  let w2 := emit (HandlerLeft (commandName i) (hr_thrown r))
              (set_flags (hr_replied r) (hr_deferred r)
                 (set_db (hr_db r) (emit (HandlerEntered (commandName i)) w1))) in
  CommandHandler.handleCommand this i w
  = match hr_thrown r with
    | None => (Normal tt, w2)
    | Some error =>
        (console.error (CommandExecutionError error);;
         message ← message_of error;
         CommandHandler.logCommandUsage i false message;;
         replied ← interaction.replied;
         deferred ← interaction.deferred;
         if replied || deferred then interaction.followUp CommandHandler.errorMessage
         else interaction.reply CommandHandler.errorMessage) w2
    end.
Proof.
  intros Hcmd. cbv zeta. unfold handler_run, CommandHandler.handleCommand.
  rewrite Hcmd. unfold try_catch at 1. unfold mbind at 1, Js_bind at 1.
  pose proof (logCommandUsage_returns i true None w) as Hret.
  unfold completion, exec in *.
  destruct (CommandHandler.logCommandUsage i true None w) as [c w1]. cbn in Hret.
  subst c. cbn [snd]. unfold run_command.
  destruct (hr_thrown _); reflexivity.
Qed.

Lemma handleCommand_milestones this i command w :
  CommandHandler.commands this !! commandName i = Some command ->
  db_available (w_oracle w) ->
  milestones (history (exec (CommandHandler.handleCommand this i) w))
  = milestones (history w)
    ++ UsageWritten 1 None :: Entered :: Left
       :: match hr_thrown (handler_run command i w) with
          | None => []
          | Some (ErrorObject m) => [UsageWritten 0 (Some m)]
          | Some NoMessage => [UsageWritten 0 None]
          | Some Null | Some Undefined => []
          end.
Proof.
  intros Hcmd Hdb. unfold handler_run. js_unfold. rewrite Hcmd. cbn.
  rewrite !Hdb. cbn.
  match goal with |- context [hr_thrown ?r] => destruct (hr_thrown r) as [[m| | |]|] eqn:Ht end;
    cbn; rewrite ?Hdb; cbn.
  all: try (destruct (_ || _); cbn; destruct (reply_fault _ _); cbn).
  all: unfold milestones; rewrite ?omap_app; cbn; rewrite <- ?app_assoc; try reflexivity.
Qed.

(** C1, as the code has it: a dispatch whose command name resolves writes a
    usage record with [success = 1] before the handler is entered; when the
    handler returns, that is the only record; when the handler throws an
    error with message [m], a second record with [success = 0] and
    [error_message = m] follows once the handler has been left.  (The
    database is taken to accept the writes.) *)
Theorem handleCommand_audit_log this i command w m :
  CommandHandler.commands this !! commandName i = Some command ->
  db_available (w_oracle w) ->
  (hr_thrown (handler_run command i w) = None ->
   milestones (history (exec (CommandHandler.handleCommand this i) w))
   = milestones (history w) ++ [UsageWritten 1 None; Entered; Left])
  /\ (hr_thrown (handler_run command i w) = Some (ErrorObject m) ->
      milestones (history (exec (CommandHandler.handleCommand this i) w))
      = milestones (history w)
        ++ [UsageWritten 1 None; Entered; Left; UsageWritten 0 (Some m)]).
Proof.
  intros Hcmd Hdb.
  split; intros Ht; rewrite (handleCommand_milestones this i command w Hcmd Hdb), Ht;
    reflexivity.
Qed.

Lemma handleCommand_audit_log_witness :
  milestones (history (exec (CommandHandler.handleCommand Sample.registry (Sample.slash "boom"))
                         (initial Sample.calm Sample.empty_db)))
  = [UsageWritten 1 None; Entered; Left; UsageWritten 0 (Some "boom")].
Proof.
  apply (handleCommand_audit_log Sample.registry (Sample.slash "boom")
           (Sample.throwing (ErrorObject "boom")) (initial Sample.calm Sample.empty_db) "boom").
  - vm_compute. reflexivity.
  - intros n. reflexivity.
  - vm_compute. reflexivity.
Defined.

(** C1, as it is worded, fails: the handler that throws [new Error("boom")]
    leaves two usage records, the first of them written before the handler
    ran. *)
Lemma boom_writes_two_usage_records :
  let h := history (exec (CommandHandler.handleCommand Sample.registry (Sample.slash "boom"))
                      (initial Sample.calm Sample.empty_db)) in
  milestones h = [UsageWritten 1 None; Entered; Left; UsageWritten 0 (Some "boom")]
  /\ length (usage_written h) = 2%nat
  /\ ~ claimed_single_record (milestones h) 0 (Some "boom").
Proof.
  assert (E : milestones (history (exec (CommandHandler.handleCommand Sample.registry
                                           (Sample.slash "boom"))
                                     (initial Sample.calm Sample.empty_db)))
              = [UsageWritten 1 None; Entered; Left; UsageWritten 0 (Some "boom")])
    by (vm_compute; reflexivity).
  cbv zeta. unfold usage_written, claimed_single_record. rewrite E.
  split; [reflexivity|]. split; [reflexivity|]. discriminate.
Qed.

(** ** What reaches the caller and the invoker *)

Lemma handleCommand_unknown this i w :
  CommandHandler.commands this !! commandName i = None ->
  CommandHandler.handleCommand this i w = interaction.reply CommandHandler.notFound w.
Proof. intros H. unfold CommandHandler.handleCommand. rewrite H. reflexivity. Qed.

(** C8: a command name that is not registered gets the ephemeral
    "Command not found!" reply and nothing else happens: the dispatch
    returns, no usage record is written, the database is untouched. *)
Theorem handleCommand_not_found this i w :
  CommandHandler.commands this !! commandName i = None ->
  reply_fault (w_oracle w) (w_rpio w) = None ->
  let w' := exec (CommandHandler.handleCommand this i) w in
  history w' = history w ++ [Replied CommandHandler.notFound]
  /\ content CommandHandler.notFound = "Command not found!"
  /\ ephemeral CommandHandler.notFound = true
  /\ completion (CommandHandler.handleCommand this i) w = Normal tt
  /\ usage_written (history w') = usage_written (history w)
  /\ w_db w' = w_db w.
Proof.
  intros Hcmd Hok. cbv zeta. unfold exec, completion.
  rewrite (handleCommand_unknown this i w Hcmd).
  unfold interaction.reply. rewrite Hok. cbn.
  repeat split; try reflexivity.
  unfold history. cbn. unfold usage_written, milestones.
  rewrite omap_app. cbn. now rewrite app_nil_r.
Qed.

Lemma handleCommand_not_found_witness :
  history (exec (CommandHandler.handleCommand Sample.registry (Sample.slash "foo"))
             (initial Sample.calm Sample.empty_db))
  = [Replied CommandHandler.notFound]
  /\ command_usage (w_db (exec (CommandHandler.handleCommand Sample.registry (Sample.slash "foo"))
                            (initial Sample.calm Sample.empty_db))) = [].
Proof.
  destruct (handleCommand_not_found Sample.registry (Sample.slash "foo")
              (initial Sample.calm Sample.empty_db)) as (Hh & _ & _ & _ & _ & Hdb).
  - vm_compute. reflexivity.
  - reflexivity.
  - split; [exact Hh | rewrite Hdb; reflexivity].
Defined.

(** C3, as the code has it: the dispatch returns to its caller without an
    exception whenever the platform accepts the replies and follow-ups it
    sends, whether the name is registered or not, whether the handler
    returns or throws an error, and whatever the database does with the
    audit-log writes. *)
Theorem handleCommand_returns this i w :
  replies_accepted (w_oracle w) ->
  (forall command e,
      CommandHandler.commands this !! commandName i = Some command ->
      hr_thrown (handler_run command i w) = Some e -> nullish e = false) ->
  completion (CommandHandler.handleCommand this i) w = Normal tt.
Proof.
  intros Hrp Hthrown. unfold completion.
  destruct (CommandHandler.commands this !! commandName i) as [command|] eqn:Hcmd.
  - rewrite (handleCommand_resolved this i command w Hcmd). cbv zeta.
    destruct (hr_thrown (handler_run command i w)) as [e|] eqn:Ht; [|reflexivity].
    specialize (Hthrown command e eq_refl Ht).
    destruct e; try discriminate; js_unfold; cbn.
    all: destruct (db_fault (w_oracle w) (w_dbio w)); cbn; destruct (db_fault _ _); cbn.
    all: destruct (_ || _); cbn; rewrite Hrp; reflexivity.
  - rewrite (handleCommand_unknown this i w Hcmd).
    unfold interaction.reply. now rewrite Hrp.
Qed.

Lemma handleCommand_returns_witness :
  completion (CommandHandler.handleCommand Sample.registry (Sample.slash "boom"))
    (initial Sample.db_down Sample.empty_db) = Normal tt.
Proof.
  apply handleCommand_returns.
  - intros n. reflexivity.
  - intros command e Hcmd. vm_compute in Hcmd. injection Hcmd as <-.
    vm_compute. intros [= <-]. reflexivity.
Defined.

(** C3, as it is worded, fails: when the platform rejects the
    "Command not found!" reply, the rejection reaches the caller. *)
Lemma reply_failure_reaches_caller :
  completion (CommandHandler.handleCommand Sample.registry (Sample.slash "foo"))
    (initial Sample.reply_down Sample.empty_db)
  = Abrupt (ErrorObject "Unknown interaction")
  /\ completion (CommandHandler.handleCommand Sample.registry (Sample.slash "foo"))
       (initial Sample.reply_down Sample.empty_db) <> Normal tt.
Proof. split; [vm_compute; reflexivity | vm_compute; discriminate]. Qed.

(** X5: the failure notice after a handler threw an error: a follow-up when the
    interaction is replied or deferred by then, a reply otherwise; always the
    same text, whatever was thrown. *)
Lemma handleCommand_failure_notice this i command w e :
  CommandHandler.commands this !! commandName i = Some command ->
  replies_accepted (w_oracle w) ->
  hr_thrown (handler_run command i w) = Some e ->
  nullish e = false ->
  notices (history (exec (CommandHandler.handleCommand this i) w))
  = notices (history w)
    ++ [if hr_replied (handler_run command i w) || hr_deferred (handler_run command i w)
        then FollowedUp CommandHandler.errorMessage
        else Replied CommandHandler.errorMessage].
Proof.
  intros Hcmd Hrp Ht Hn. unfold exec.
  rewrite (handleCommand_resolved this i command w Hcmd). cbv zeta. rewrite Ht.
  destruct e; try discriminate; js_unfold; cbn.
  all: destruct (db_fault (w_oracle w) (w_dbio w)); cbn; destruct (db_fault _ _); cbn.
  all: destruct (_ || _); cbn; rewrite Hrp; cbn.
  all: unfold notices; rewrite ?omap_app; cbn; rewrite <- ?app_assoc; reflexivity.
Qed.

(** C9 fails on a handler that rejects with [undefined]: reading
    [error.message] raises a [TypeError] inside the [catch] block, the
    invoker receives nothing and the dispatch itself throws. *)
Theorem undefined_rejection_gets_no_notice :
  let run := CommandHandler.handleCommand Sample.registry (Sample.slash "void") in
  let w := initial Sample.calm Sample.empty_db in
  notices (history (exec run w)) = []
  /\ completion run w
     = Abrupt (ErrorObject "Cannot read properties of undefined (reading 'message')").
Proof. split; vm_compute; reflexivity. Qed.

(** ** Rows of [user_levels] under the statements of [awardXP] *)

Lemma is_user_level_spec u s r :
  SQL.is_user_level u s r = true <-> ul_user_id r = u /\ ul_server_id r = s.
Proof.
  unfold SQL.is_user_level. rewrite andb_true_iff, !String.eqb_eq. reflexivity.
Qed.

Lemma is_user_level_update xp level u s now u' s' r :
  SQL.is_user_level u' s' (SQL.update_user_level xp level u s now r)
  = SQL.is_user_level u' s' r.
Proof. unfold SQL.update_user_level. destruct (SQL.is_user_level u s r); reflexivity. Qed.

Lemma find_map_keeping {A} (P : A -> bool) (f : A -> A) (l : list A) :
  (forall a, P (f a) = P a) -> find P (map f l) = f <$> find P l.
Proof.
  intros HP. induction l as [|a l IH]; [reflexivity|]. cbn.
  rewrite HP. destruct (P a); [reflexivity | exact IH].
Qed.

Lemma select_after_update xp level u s now u' s' db :
  SQL.select_user_level u' s' (SQL.run (UpdateUserLevel xp level u s now) db)
  = SQL.update_user_level xp level u s now <$> SQL.select_user_level u' s' db.
Proof.
  unfold SQL.select_user_level. cbn. apply find_map_keeping.
  intros r. apply is_user_level_update.
Qed.

Lemma select_found u s db row :
  SQL.select_user_level u s db = Some row -> ul_user_id row = u /\ ul_server_id row = s.
Proof.
  unfold SQL.select_user_level. intros H. apply find_some in H as [_ H].
  now apply is_user_level_spec.
Qed.

Lemma select_after_update_other xp level u s now u' s' db :
  (u', s') <> (u, s) ->
  SQL.select_user_level u' s' (SQL.run (UpdateUserLevel xp level u s now) db)
  = SQL.select_user_level u' s' db.
Proof.
  intros Hne. rewrite select_after_update.
  destruct (SQL.select_user_level u' s' db) as [row|] eqn:Hsel; [|reflexivity].
  cbn. f_equal. apply select_found in Hsel as [Hu Hs].
  unfold SQL.update_user_level.
  destruct (SQL.is_user_level u s row) eqn:Hm; [|reflexivity].
  apply is_user_level_spec in Hm as [Hu' Hs']. congruence.
Qed.


Lemma select_after_insert_new id u s xp now db :
  SQL.select_user_level u s db = None ->
  SQL.select_user_level u s (SQL.run (InsertUserLevel id u s xp now) db)
  = Some {| ul_id := id; ul_user_id := u; ul_server_id := s; ul_xp := xp;
            ul_level := 0; ul_messages_sent := 1; ul_last_xp_gain := Some now |}.
Proof.
  unfold SQL.select_user_level. cbn. intros H.
  induction (user_levels db) as [|a l IH].
  - cbn. unfold SQL.is_user_level. cbn. now rewrite !String.eqb_refl.
  - cbn in *. destruct (SQL.is_user_level u s a); [discriminate | now apply IH].
Qed.

(** ** The three ways [awardXP] can go *)

Lemma awardXP_returns message w :
  completion (EventHandler.awardXP message) w = Normal tt.
Proof.
  js_unfold. destruct (guild message); cbn; [|reflexivity].
  destruct (db_fault (w_oracle w) (w_dbio w)); cbn; [reflexivity|].
  destruct (SQL.select_user_level _ _ _) as [row|]; cbn.
  - destruct (ul_last_xp_gain row); cbn; [destruct (_ <? _); cbn; [reflexivity|]|];
      (destruct (db_fault _ _); cbn; [reflexivity|]; destruct (_ <? _)%N; reflexivity).
  - destruct (db_fault _ _); reflexivity.
Qed.

Lemma awardXP_cooldown message s w row stamp :
  guild message = Some s ->
  db_fault (w_oracle w) (w_dbio w) = None ->
  SQL.select_user_level (author_id message) s (w_db w) = Some row ->
  ul_last_xp_gain row = Some stamp ->
  clock (w_oracle w) (w_clk w) - Date.getTime stamp < 60000 ->
  EventHandler.awardXP message w = (Normal tt, next_clk (next_dbio (next_rnd w))).
Proof.
  intros Hg Hf Hsel Hlast Hlt. js_unfold. rewrite Hg. cbn. rewrite Hf. cbn.
  rewrite Hsel. cbn. rewrite Hlast. cbn.
  destruct (Z.ltb_spec (clock (w_oracle w) (w_clk w) - Date.getTime stamp) 60000); [|lia].
  reflexivity.
Qed.

Lemma awardXP_update message s w row :
  guild message = Some s ->
  db_fault (w_oracle w) (w_dbio w) = None ->
  SQL.select_user_level (author_id message) s (w_db w) = Some row ->
  (forall stamp, ul_last_xp_gain row = Some stamp ->
                 60000 <= clock (w_oracle w) (w_clk w) - Date.getTime stamp) ->
  db_fault (w_oracle w) (S (w_dbio w)) = None ->
  let newXP := addXP (ul_xp row) (xpToAward (Math.of_draw (random (w_oracle w) (w_rnd w)))) in
  let newLevel := levelOf newXP in
  let k := match ul_last_xp_gain row with Some _ => S (w_clk w) | None => w_clk w end in
  let stmt := UpdateUserLevel newXP newLevel (author_id message) s
                (SQL.CURRENT_TIMESTAMP (clock (w_oracle w) k)) in
  let w' := exec (EventHandler.awardXP message) w in
  w_db w' = SQL.run stmt (w_db w)
  /\ w_trace w'
     = (if (ul_level row <? newLevel)%N
        then [MessageReplied (author_id message) newLevel] else [])
       ++ Ran stmt :: w_trace w.
Proof.
  intros Hg Hf Hsel Hgate Hf2. js_unfold. rewrite Hg. cbn. rewrite Hf. cbn.
  rewrite Hsel. cbn.
  destruct (ul_last_xp_gain row) as [stamp|] eqn:Hlast; cbn.
  - specialize (Hgate stamp eq_refl).
    destruct (Z.ltb_spec (clock (w_oracle w) (w_clk w) - Date.getTime stamp) 60000); [lia|].
    cbn. rewrite Hf2. cbn. destruct (_ <? _)%N; cbn; split; reflexivity.
  - rewrite Hf2. cbn. destruct (_ <? _)%N; cbn; split; reflexivity.
Qed.

Lemma awardXP_insert message s w :
  guild message = Some s ->
  db_fault (w_oracle w) (w_dbio w) = None ->
  SQL.select_user_level (author_id message) s (w_db w) = None ->
  db_fault (w_oracle w) (S (w_dbio w)) = None ->
  let xp := Z.to_N (xpToAward (Math.of_draw (random (w_oracle w) (w_rnd w)))) in
  let id := MkRowId "lvl" (clock (w_oracle w) (w_clk w))
              (Math.of_draw (random (w_oracle w) (S (w_rnd w)))) in
  let stmt := InsertUserLevel id (author_id message) s xp
                (SQL.CURRENT_TIMESTAMP (clock (w_oracle w) (S (w_clk w)))) in
  let w' := exec (EventHandler.awardXP message) w in
  w_db w' = SQL.run stmt (w_db w) /\ w_trace w' = Ran stmt :: w_trace w.
Proof.
  intros Hg Hf Hsel Hf2. js_unfold. rewrite Hg. cbn. rewrite Hf. cbn.
  rewrite Hsel. cbn. rewrite Hf2. cbn. split; reflexivity.
Qed.

Lemma awardXP_cases message w :
  let o := w_oracle w in
  let u := author_id message in
  let w' := exec (EventHandler.awardXP message) w in
  w_oracle w' = o
  /\ ((w_db w' = w_db w /\ awards (w_trace w') = awards (w_trace w))
      \/ (exists s row k xp,
             guild message = Some s
             /\ SQL.select_user_level u s (w_db w) = Some row
             /\ (w_clk w <= k)%nat
             /\ (forall stamp, ul_last_xp_gain row = Some stamp ->
                               60000 <= clock o (w_clk w) - Date.getTime stamp)
             /\ w_db w' = SQL.run (UpdateUserLevel xp (levelOf xp) u s
                                     (SQL.CURRENT_TIMESTAMP (clock o k))) (w_db w)
             /\ awards (w_trace w')
                = (u, s, SQL.CURRENT_TIMESTAMP (clock o k)) :: awards (w_trace w))
      \/ (exists s k id,
             guild message = Some s
             /\ SQL.select_user_level u s (w_db w) = None
             /\ w_db w' = SQL.run (InsertUserLevel id u s
                                     (Z.to_N (xpToAward (Math.of_draw (random o (w_rnd w)))))
                                     (SQL.CURRENT_TIMESTAMP (clock o k))) (w_db w)
             /\ awards (w_trace w')
                = (u, s, SQL.CURRENT_TIMESTAMP (clock o k)) :: awards (w_trace w))).
Proof.
  cbv zeta. js_unfold. destruct (guild message) as [s|]; cbn; [|now split; [|left]].
  destruct (db_fault (w_oracle w) (w_dbio w)); cbn; [now split; [|left]|].
  destruct (SQL.select_user_level _ _ _) as [row|] eqn:Hsel; cbn.
  - destruct (ul_last_xp_gain row) as [stamp|] eqn:Hlast; cbn.
    + destruct (Z.ltb_spec (clock (w_oracle w) (w_clk w) - Date.getTime stamp) 60000);
        cbn; [now split; [|left]|].
      destruct (db_fault _ _); cbn; [now split; [|left]|].
      destruct (_ <? _)%N; cbn; (split; [reflexivity|]); right; left;
        exists s, row, (S (w_clk w)); eexists;
        (split; [reflexivity|]); (split; [exact Hsel|]); (split; [lia|]);
        (split; [intros ? Hs; rewrite Hlast in Hs; injection Hs as <-; lia|]);
        split; reflexivity.
    + destruct (db_fault _ _); cbn; [now split; [|left]|].
      destruct (_ <? _)%N; cbn; (split; [reflexivity|]); right; left;
        exists s, row, (w_clk w); eexists;
        (split; [reflexivity|]); (split; [exact Hsel|]); (split; [lia|]);
        (split; [intros ? Hs; rewrite Hlast in Hs; discriminate|]);
        split; reflexivity.
  - destruct (db_fault _ _); cbn; [now split; [|left]|].
    split; [reflexivity|]. right; right. exists s, (S (w_clk w)). eexists.
    split; [reflexivity|]. split; [exact Hsel|]. split; reflexivity.
Qed.

(** ** The cooldown over a sequence of awards *)




Lemma exec_award_all_cons message rest w :
  exec (award_all (message :: rest)) w
  = exec (award_all rest) (exec (EventHandler.awardXP message) w).
Proof.
  pose proof (awardXP_returns message w) as Hret.
  unfold exec, completion in *. cbn [award_all]. unfold mbind, Js_bind.
  destruct (EventHandler.awardXP message w) as [c w1]. cbn in Hret. now subst c.
Qed.



(** ** The award and the level *)

Lemma random_is_draw w :
  completion Math.random w = Normal (Math.of_draw (random (w_oracle w) (w_rnd w))).
Proof. reflexivity. Qed.

Lemma xpToAward_attained d :
  10 <= d <= 24 -> xpToAward (Math.of_draw (Sample.draw_for d)) = d.
Proof.
  intros Hd.
  assert (H : d = 10 \/ d = 11 \/ d = 12 \/ d = 13 \/ d = 14 \/ d = 15 \/ d = 16
              \/ d = 17 \/ d = 18 \/ d = 19 \/ d = 20 \/ d = 21 \/ d = 22 \/ d = 23
              \/ d = 24) by lia.
  repeat (destruct H as [->|H]; [vm_compute; reflexivity|]).
  subst d. vm_compute. reflexivity.
Qed.

(** C2: the award is [floor(random * 15) + 10] with [random < 1], so it is
    an integer from 10 to 24, each of them attained; 25, the upper end that
    the comment on line 189 and the claim give, is never awarded, not even
    for the largest random number [1 - 2^-53]. *)
Theorem xpToAward_range :
  (forall w, match completion Math.random w with
             | Normal r => 10 <= xpToAward r <= 24
             | Abrupt _ => False
             end)
  /\ (forall d, 10 <= d <= 24 -> exists k, xpToAward (Math.of_draw k) = d)
  /\ (forall k, xpToAward (Math.of_draw k) <> 25)
  /\ xpToAward (Math.of_draw (2 ^ 53 - 1)) = 24.
Proof.
  split; [|split; [|split]].
  - intros w. rewrite random_is_draw. apply xpToAward_bounds.
  - intros d Hd. exists (Sample.draw_for d). now apply xpToAward_attained.
  - intros k. pose proof (xpToAward_bounds k). lia.
  - vm_compute. reflexivity.
Qed.




(** C6: an award over an existing row is followed by the congratulation,
    naming the new level, exactly when the level derived from the new total
    is above the level the row held; a row with 80 XP and level 0 that is
    awarded 20 XP reaches level 1 and is congratulated for it. *)
Theorem level_up_detection message s w row :
  guild message = Some s ->
  db_fault (w_oracle w) (w_dbio w) = None ->
  SQL.select_user_level (author_id message) s (w_db w) = Some row ->
  (forall stamp, ul_last_xp_gain row = Some stamp ->
                 60000 <= clock (w_oracle w) (w_clk w) - Date.getTime stamp) ->
  db_fault (w_oracle w) (S (w_dbio w)) = None ->
  let delta := xpToAward (Math.of_draw (random (w_oracle w) (w_rnd w))) in
  let newLevel := levelOf (addXP (ul_xp row) delta) in
  let w' := exec (EventHandler.awardXP message) w in
  (exists stmt,
      history w'
      = history w ++ Ran stmt
          :: (if (ul_level row <? newLevel)%N
              then [MessageReplied (author_id message) newLevel] else []))
  /\ (last (history w') = Some (MessageReplied (author_id message) newLevel)
      <-> (ul_level row < newLevel)%N)
  /\ (ul_xp row = 80%N -> ul_level row = 0%N -> delta = 20 ->
      newLevel = 1%N
      /\ last (history w') = Some (MessageReplied (author_id message) 1)).
Proof.
  intros Hg Hf Hsel Hgate Hf2. cbv zeta.
  destruct (awardXP_update message s w row Hg Hf Hsel Hgate Hf2) as [_ Htr].
  cbv zeta in Htr. unfold history. rewrite Htr.
  set (delta := xpToAward _). set (newLevel := levelOf _).
  set (stmt := UpdateUserLevel _ _ _ _ _).
  assert (Hlast : last (rev ((if (ul_level row <? newLevel)%N
                              then [MessageReplied (author_id message) newLevel] else [])
                             ++ Ran stmt :: w_trace w))
                  = Some (MessageReplied (author_id message) newLevel)
                  <-> (ul_level row < newLevel)%N).
  { destruct (N.ltb_spec (ul_level row) newLevel) as [Hlt|Hge]; cbn.
    - rewrite last_snoc. tauto.
    - rewrite last_snoc. split; [discriminate | lia]. }
  split; [|split].
  - exists stmt. destruct (_ <? _)%N; cbn; rewrite <- ?app_assoc; reflexivity.
  - exact Hlast.
  - intros Hxp Hlvl Hd.
    assert (Hnew : newLevel = 1%N).
    { unfold newLevel. rewrite Hxp, Hd. vm_compute. reflexivity. }
    split; [exact Hnew|]. rewrite <- Hnew. apply Hlast. rewrite Hlvl, Hnew. lia.
Qed.

Lemma level_up_detection_witness :
  let w' := exec (EventHandler.awardXP Sample.message_1)
              (initial Sample.twenty (Sample.db_with (Sample.row_1 80 0 None))) in
  last (history w') = Some (MessageReplied "user-1" 1)
  /\ SQL.select_user_level "user-1" "guild-1" (w_db w')
     = Some {| ul_id := ul_id (Sample.row_1 80 0 None);
               ul_user_id := "user-1"; ul_server_id := "guild-1";
               ul_xp := 100; ul_level := 1; ul_messages_sent := 8;
               ul_last_xp_gain := Some 1700000000 |}.
Proof.
  cbv zeta. split.
  - destruct (level_up_detection Sample.message_1 "guild-1"
                (initial Sample.twenty (Sample.db_with (Sample.row_1 80 0 None)))
                (Sample.row_1 80 0 None)) as (_ & _ & Hexample).
    + reflexivity.
    + reflexivity.
    + vm_compute. reflexivity.
    + intros stamp Hs. vm_compute in Hs. discriminate.
    + reflexivity.
    + apply Hexample; [reflexivity | reflexivity | vm_compute; reflexivity].
  - vm_compute. reflexivity.
Defined.

(** C10: a row without a [last_xp_gain] is not subject to the cooldown.  A
    message by a user in a server with leveling enabled, whose row has a null
    timestamp, is awarded at once, whatever the clock shows: the row gets the
    new total, the level derived from it, one more message and a timestamp. *)
Theorem null_timestamp_awarded message s config row w :
  author_bot message = false ->
  guild message = Some s ->
  db_available (w_oracle w) ->
  SQL.select_server_config s (w_db w) = Some config ->
  sc_leveling_enabled config <> 0 ->
  SQL.select_user_level (author_id message) s (w_db w) = Some row ->
  ul_last_xp_gain row = None ->
  let newXP := addXP (ul_xp row) (xpToAward (Math.of_draw (random (w_oracle w) (w_rnd w)))) in
  let now := SQL.CURRENT_TIMESTAMP (clock (w_oracle w) (w_clk w)) in
  let w' := exec (EventHandler.on_messageCreate message) w in
  w_db w' = SQL.run (UpdateUserLevel newXP (levelOf newXP) (author_id message) s now) (w_db w)
  /\ SQL.select_user_level (author_id message) s (w_db w')
     = Some {| ul_id := ul_id row; ul_user_id := ul_user_id row;
               ul_server_id := ul_server_id row;
               ul_xp := newXP; ul_level := levelOf newXP;
               ul_messages_sent := (ul_messages_sent row + 1)%N;
               ul_last_xp_gain := Some now |}.
Proof.
  intros Hbot Hg Hdb Hcfg Hen Hsel Hlast. cbv zeta.
  assert (Hstep : EventHandler.on_messageCreate message w
                  = EventHandler.awardXP message (next_dbio w)).
  { unfold EventHandler.on_messageCreate, EventHandler.getServerConfig, try_catch,
      DB.first, mbind, Js_bind.
    rewrite Hbot, Hg, Hdb, Hcfg.
    destruct (Z.eqb_spec (sc_leveling_enabled config) 0); [contradiction | reflexivity]. }
  assert (Hexec : exec (EventHandler.on_messageCreate message) w
                  = exec (EventHandler.awardXP message) (next_dbio w))
    by (unfold exec; now rewrite Hstep).
  rewrite Hexec.
  destruct (awardXP_update message s (next_dbio w) row Hg (Hdb _) Hsel) as [Hw _].
  - intros stamp Hs. rewrite Hlast in Hs. discriminate.
  - apply Hdb.
  - cbv zeta in Hw. rewrite Hlast in Hw.
    cbn [w_oracle w_clk w_db w_rnd next_dbio] in Hw.
    split; [exact Hw|]. rewrite Hw, select_after_update, Hsel. cbn.
    apply select_found in Hsel. apply is_user_level_spec in Hsel.
    unfold SQL.update_user_level. now rewrite Hsel.
Qed.

Lemma null_timestamp_awarded_witness :
  SQL.select_user_level "user-1" "guild-1"
    (w_db (exec (EventHandler.on_messageCreate Sample.message_1)
             (initial Sample.calm (Sample.db_with (Sample.row_1 100 1 None)))))
  = Some {| ul_id := ul_id (Sample.row_1 100 1 None);
            ul_user_id := "user-1"; ul_server_id := "guild-1";
            ul_xp := 117; ul_level := 1; ul_messages_sent := 8;
            ul_last_xp_gain := Some 1700000000 |}.
Proof.
  apply (null_timestamp_awarded Sample.message_1 "guild-1" Sample.config_1
           (Sample.row_1 100 1 None)
           (initial Sample.calm (Sample.db_with (Sample.row_1 100 1 None)))).
  - reflexivity.
  - reflexivity.
  - intros n. reflexivity.
  - reflexivity.
  - vm_compute. discriminate.
  - reflexivity.
  - reflexivity.
Defined.


(** ** Joining a server *)

Lemma filter_none {A} (P : A -> bool) l : existsb P l = false -> List.filter P l = [].
Proof.
  induction l as [|a l IH]; [reflexivity|]. cbn.
  destruct (P a); [discriminate | exact IH].
Qed.

Lemma find_app_none {A} (P : A -> bool) l l' :
  find P l = None -> find P (l ++ l') = find P l'.
Proof.
  induction l as [|a l IH]; [reflexivity|]. cbn.
  destruct (P a); [discriminate | exact IH].
Qed.

Lemma one_row_per_server_id id l :
  NoDup (map sc_server_id l) ->
  existsb (SQL.is_server_config id) l = true ->
  length (List.filter (SQL.is_server_config id) l) = 1%nat.
Proof.
  induction l as [|a l IH]; [discriminate|]. cbn. intros Hnd Hex.
  apply NoDup_cons in Hnd as [Hnotin Hnd].
  destruct (SQL.is_server_config id a) eqn:Ha.
  - cbn. f_equal. rewrite filter_none; [reflexivity|].
    apply not_true_is_false. intros Hsome. apply Hnotin.
    apply existsb_exists in Hsome as (b & Hb & Hid).
    unfold SQL.is_server_config in *. apply String.eqb_eq in Ha, Hid.
    apply list_elem_of_In. apply in_map_iff. exists b. split; [congruence|assumption].
  - now apply IH.
Qed.

Lemma insert_or_ignore_count id name now db :
  server_id_unique db ->
  length (List.filter (SQL.is_server_config id)
            (server_configs (SQL.run (InsertOrIgnoreServerConfig id name now) db))) = 1%nat.
Proof.
  intros Hu. cbn.
  destruct (existsb (SQL.is_server_config id) (server_configs db)) eqn:Hex.
  - now apply one_row_per_server_id.
  - cbn. rewrite List.filter_app, (filter_none _ _ Hex). cbn.
    unfold SQL.is_server_config. cbn. now rewrite String.eqb_refl.
Qed.

Lemma insert_or_ignore_again id name now db :
  existsb (SQL.is_server_config id) (server_configs db) = true ->
  SQL.run (InsertOrIgnoreServerConfig id name now) db = db.
Proof. intros H. cbn. now rewrite H. Qed.

Lemma insert_or_ignore_present id name now db :
  existsb (SQL.is_server_config id)
    (server_configs (SQL.run (InsertOrIgnoreServerConfig id name now) db)) = true.
Proof.
  cbn. destruct (existsb (SQL.is_server_config id) (server_configs db)) eqn:Hex;
    [exact Hex|]. cbn.
  rewrite existsb_app. cbn. unfold SQL.is_server_config. cbn.
  rewrite String.eqb_refl. now rewrite orb_true_r.
Qed.

Lemma on_guildCreate_configs this g w :
  server_configs (w_db (exec (EventHandler.on_guildCreate this g) w))
  = match db_fault (w_oracle w) (w_dbio w) with
    | None =>
        server_configs
          (SQL.run (InsertOrIgnoreServerConfig (guild_id g) (guild_name g)
                      (SQL.CURRENT_TIMESTAMP (clock (w_oracle w) (w_clk w)))) (w_db w))
    | Some _ => server_configs (w_db w)
    end.
Proof.
  js_unfold. cbn.
  destruct (db_fault (w_oracle w) (w_dbio w)); cbn; destruct (db_fault _ _); cbn;
    try reflexivity.
  all: destruct (existsb _ _); reflexivity.
Qed.

(** C7: when the bot joins the same server twice, the second join leaves
    the configuration rows as the first one left them, and there is exactly
    one row for the server; when the first join created it, it still has the
    name, the creation time and the leveling flag of the first join.  (The
    first insert is taken to reach the database.) *)
Theorem join_twice this this' g g' w :
  guild_id g' = guild_id g ->
  server_id_unique (w_db w) ->
  db_fault (w_oracle w) (w_dbio w) = None ->
  let w1 := exec (EventHandler.on_guildCreate this g) w in
  let w2 := exec (EventHandler.on_guildCreate this' g') w1 in
  length (List.filter (SQL.is_server_config (guild_id g)) (server_configs (w_db w2))) = 1%nat
  /\ server_configs (w_db w2) = server_configs (w_db w1)
  /\ (SQL.select_server_config (guild_id g) (w_db w) = None ->
      SQL.select_server_config (guild_id g) (w_db w2)
      = Some {| sc_server_id := guild_id g; sc_server_name := guild_name g;
                sc_created_at := SQL.CURRENT_TIMESTAMP (clock (w_oracle w) (w_clk w));
                sc_leveling_enabled := 1 |}).
Proof.
  intros Hid Hu Hf. cbv zeta.
  pose proof (on_guildCreate_configs this g w) as H1. rewrite Hf in H1.
  set (w1 := exec (EventHandler.on_guildCreate this g) w) in *.
  assert (H2 : server_configs (w_db (exec (EventHandler.on_guildCreate this' g') w1))
               = server_configs (w_db w1)).
  { rewrite on_guildCreate_configs.
    destruct (db_fault (w_oracle w1) (w_dbio w1)); [reflexivity|].
    rewrite insert_or_ignore_again; [reflexivity|].
    rewrite Hid, H1. apply insert_or_ignore_present. }
  split; [|split].
  - rewrite H2, H1. now apply insert_or_ignore_count.
  - exact H2.
  - intros Hnone. unfold SQL.select_server_config in *. rewrite H2, H1. cbn.
    destruct (existsb _ _) eqn:Hex.
    + apply existsb_exists in Hex as (b & Hb & Hm).
      pose proof (find_none _ _ Hnone _ Hb). congruence.
    + cbn. rewrite (find_app_none _ _ _ Hnone). cbn. unfold SQL.is_server_config. cbn.
      now rewrite String.eqb_refl.
Qed.

Lemma join_twice_witness :
  server_configs
    (w_db (exec (EventHandler.on_guildCreate Sample.bot Sample.guild_1_renamed)
             (exec (EventHandler.on_guildCreate Sample.bot Sample.guild_1)
                (initial Sample.calm Sample.empty_db))))
  = [{| sc_server_id := "guild-1"; sc_server_name := "Guild One";
        sc_created_at := 1700000000; sc_leveling_enabled := 1 |}].
Proof.
  destruct (join_twice Sample.bot Sample.bot Sample.guild_1 Sample.guild_1_renamed
              (initial Sample.calm Sample.empty_db)) as (_ & Hsame & _).
  - reflexivity.
  - constructor.
  - reflexivity.
  - rewrite Hsame. vm_compute. reflexivity.
Defined.

(** * Further properties of the code *)

(** ** The audit log on its own *)

(** X1: [logCommandUsage] is best effort.  When the database rejects the
    insert, the method still returns, the database is as it was, and the only
    trace is the error printed on the console. *)
Theorem logCommandUsage_swallows_failure i success msg w e :
  db_fault (w_oracle w) (w_dbio w) = Some e ->
  let w' := exec (CommandHandler.logCommandUsage i success msg) w in
  completion (CommandHandler.logCommandUsage i success msg) w = Normal tt
  /\ w_db w' = w_db w
  /\ history w' = history w ++ [ConsoleError (FailedToLogCommandUsage e)].
Proof.
  intros Hf. cbv zeta. js_unfold. cbn. rewrite Hf. cbn. repeat split.
Qed.

Lemma logCommandUsage_swallows_failure_witness :
  history (exec (CommandHandler.logCommandUsage (Sample.slash "ping") true None)
             (initial Sample.db_down Sample.empty_db))
  = [ConsoleError (FailedToLogCommandUsage (ErrorObject "D1_ERROR"))].
Proof.
  destruct (logCommandUsage_swallows_failure (Sample.slash "ping") true None
              (initial Sample.db_down Sample.empty_db) (ErrorObject "D1_ERROR"))
    as (_ & _ & Hh).
  - reflexivity.
  - exact Hh.
Defined.

(** X2: when the insert goes through, [logCommandUsage] appends exactly one
    row to [command_usage] and touches no other table.  The row names the
    interaction's command, server and user, carries the outcome it was given,
    and its [execution_time] is the time since the interaction was created. *)
Theorem logCommandUsage_appends_one_row i success msg w :
  db_fault (w_oracle w) (w_dbio w) = None ->
  let o := w_oracle w in
  let db' := w_db (exec (CommandHandler.logCommandUsage i success msg) w) in
  command_usage db'
  = command_usage (w_db w)
    ++ [{| cu_id := MkRowId "cmd" (clock o (w_clk w)) (Math.of_draw (random o (w_rnd w)));
           cu_command_name := commandName i;
           cu_server_id := guildId i;
           cu_user_id := user_id i;
           cu_success := if success then 1 else 0;
           cu_execution_time := clock o (S (w_clk w)) - createdTimestamp i;
           cu_error_message := msg;
           cu_used_at := SQL.CURRENT_TIMESTAMP (clock o (S (S (w_clk w)))) |}]
  /\ user_levels db' = user_levels (w_db w)
  /\ server_configs db' = server_configs (w_db w)
  /\ bot_stats db' = bot_stats (w_db w).
Proof.
  intros Hf. cbv zeta. js_unfold. cbn. rewrite Hf. cbn. repeat split.
Qed.

Lemma logCommandUsage_appends_one_row_witness :
  command_usage
    (w_db (exec (CommandHandler.logCommandUsage (Sample.slash "ping") false (Some "boom"))
             (initial Sample.calm Sample.empty_db)))
  = [{| cu_id := MkRowId "cmd" 1700000000000 (Math.of_draw (2 ^ 52));
        cu_command_name := "ping"; cu_server_id := Some "guild-1";
        cu_user_id := "user-1"; cu_success := 0; cu_execution_time := 2000;
        cu_error_message := Some "boom"; cu_used_at := 1700000002 |}].
Proof.
  destruct (logCommandUsage_appends_one_row (Sample.slash "ping") false (Some "boom")
              (initial Sample.calm Sample.empty_db)) as (Hrow & _).
  - reflexivity.
  - rewrite Hrow. vm_compute. reflexivity.
Defined.

(** ** The registry and the dispatch *)

(** X3: the dispatch runs the command registered last under the name, and
    registering under one name leaves the dispatch of every other name as it
    was. *)
Theorem registerCommand_dispatch name command this i :
  (commandName i = name ->
   forall earlier,
     CommandHandler.handleCommand
       (CommandHandler.registerCommand name command
          (CommandHandler.registerCommand name earlier this)) i
     = CommandHandler.handleCommand
         (CommandHandler.registerCommand name command CommandHandler.constructor) i)
  /\ (commandName i <> name ->
      CommandHandler.handleCommand (CommandHandler.registerCommand name command this) i
      = CommandHandler.handleCommand this i).
Proof.
  split.
  - intros <- earlier. unfold CommandHandler.handleCommand, CommandHandler.registerCommand.
    cbn. now rewrite !lookup_insert_eq.
  - intros Hne. unfold CommandHandler.handleCommand, CommandHandler.registerCommand.
    cbn. rewrite lookup_insert_ne by congruence. reflexivity.
Qed.

(** X4: when the handler returns, the dispatch returns too, whatever the
    database and the platform do; the dispatcher sends the invoker nothing of
    its own and leaves the database as the handler left it. *)
Theorem handleCommand_success_is_silent this i command w :
  CommandHandler.commands this !! commandName i = Some command ->
  hr_thrown (handler_run command i w) = None ->
  let w' := exec (CommandHandler.handleCommand this i) w in
  completion (CommandHandler.handleCommand this i) w = Normal tt
  /\ notices (history w') = notices (history w)
  /\ w_db w' = hr_db (handler_run command i w)
  /\ w_replied w' = hr_replied (handler_run command i w)
  /\ w_deferred w' = hr_deferred (handler_run command i w).
Proof.
  intros Hcmd Ht. cbv zeta. unfold completion, exec.
  rewrite (handleCommand_resolved this i command w Hcmd). cbv zeta. rewrite Ht.
  cbn. repeat split.
  unfold history. cbn. js_unfold. cbn.
  destruct (db_fault (w_oracle w) (w_dbio w)); cbn;
    unfold notices; rewrite !omap_app; cbn; now rewrite !app_nil_r.
Qed.

Lemma handleCommand_success_is_silent_witness :
  completion (CommandHandler.handleCommand Sample.registry (Sample.slash "ping"))
    (initial Sample.reply_down Sample.empty_db) = Normal tt
  /\ notices (history (exec (CommandHandler.handleCommand Sample.registry (Sample.slash "ping"))
                         (initial Sample.reply_down Sample.empty_db))) = [].
Proof.
  destruct (handleCommand_success_is_silent Sample.registry (Sample.slash "ping")
              Sample.ping (initial Sample.reply_down Sample.empty_db)) as (Hc & Hn & _).
  - vm_compute. reflexivity.
  - vm_compute. reflexivity.
  - split; [exact Hc | exact Hn].
Defined.

Lemma handleCommand_failure_notice_witness :
  notices (history (exec (CommandHandler.handleCommand Sample.registry (Sample.slash "late"))
                      (initial Sample.db_down Sample.empty_db)))
  = [FollowedUp CommandHandler.errorMessage]
  /\ notices (history (exec (CommandHandler.handleCommand Sample.registry (Sample.slash "boom"))
                         (initial Sample.calm Sample.empty_db)))
     = [Replied CommandHandler.errorMessage].
Proof.
  split.
  - apply (handleCommand_failure_notice Sample.registry (Sample.slash "late")
             Sample.defer_then_boom (initial Sample.db_down Sample.empty_db)
             (ErrorObject "boom")).
    + vm_compute. reflexivity.
    + intros n. reflexivity.
    + vm_compute. reflexivity.
    + reflexivity.
  - apply (handleCommand_failure_notice Sample.registry (Sample.slash "boom")
             (Sample.throwing (ErrorObject "boom")) (initial Sample.calm Sample.empty_db)
             (ErrorObject "boom")).
    + vm_compute. reflexivity.
    + intros n. reflexivity.
    + vm_compute. reflexivity.
    + reflexivity.
Defined.

(** ** Statistics and lifecycle events *)

Lemma updateBotStats_returns this w :
  completion (EventHandler.updateBotStats this) w = Normal tt.
Proof. js_unfold. cbn. destruct (db_fault _ _); reflexivity. Qed.

Lemma updateBotStats_db this w :
  w_db (exec (EventHandler.updateBotStats this) w)
  = match db_fault (w_oracle w) (w_dbio w) with
    | None =>
        SQL.set_bot_stats
          (filter (fun r => bs_id r ≠ "main_stats") (bot_stats (w_db w))
             ++ [stats_row this (SQL.CURRENT_TIMESTAMP (clock (w_oracle w) (w_clk w)))])
          (w_db w)
    | Some _ => w_db w
    end.
Proof. js_unfold. cbn. destruct (db_fault _ _); reflexivity. Qed.

Lemma no_main_stats_left (l : list BotStats) :
  List.filter is_main_stats (filter (fun r => bs_id r ≠ "main_stats") l) = [].
Proof.
  induction l as [|r l IH]; [reflexivity|].
  rewrite filter_cons. destruct (decide (bs_id r ≠ "main_stats")) as [Hne|Heq].
  - cbn. unfold is_main_stats at 1. destruct (String.eqb_spec (bs_id r) "main_stats");
      [contradiction | exact IH].
  - exact IH.
Qed.

(** X6: after [updateBotStats] reached the database there is exactly one
    [main_stats] row, whatever was there before; it holds the number of
    guilds in the cache and the sum of their member counts, and both of its
    timestamps are the time of the write.  Rows under other keys stay. *)
Theorem updateBotStats_singleton this w :
  db_fault (w_oracle w) (w_dbio w) = None ->
  let now := SQL.CURRENT_TIMESTAMP (clock (w_oracle w) (w_clk w)) in
  let db' := w_db (exec (EventHandler.updateBotStats this) w) in
  List.filter is_main_stats (bot_stats db') = [stats_row this now]
  /\ (forall r, bs_id r <> "main_stats" -> (r ∈ bot_stats db' <-> r ∈ bot_stats (w_db w)))
  /\ command_usage db' = command_usage (w_db w)
  /\ user_levels db' = user_levels (w_db w)
  /\ server_configs db' = server_configs (w_db w).
Proof.
  intros Hf. cbv zeta. rewrite updateBotStats_db, Hf. cbn.
  split; [|split; [|repeat split]].
  - rewrite List.filter_app, no_main_stats_left. reflexivity.
  - intros r Hr. rewrite elem_of_app, list_elem_of_filter, list_elem_of_singleton.
    split.
    + intros [[_ Hin] | ->]; [exact Hin | contradiction Hr; reflexivity].
    + intros Hin. left. split; assumption.
Qed.

Lemma updateBotStats_singleton_witness :
  bot_stats (w_db (exec (EventHandler.updateBotStats Scenario.bot_in_two)
                     (initial Sample.calm Scenario.db_with_stats)))
  = [{| bs_id := "main_stats"; bs_total_servers := 2; bs_total_users := 50;
        bs_last_restart := 1700000000; bs_recorded_at := 1700000000 |}].
Proof.
  destruct (updateBotStats_singleton Scenario.bot_in_two
              (initial Sample.calm Scenario.db_with_stats)) as (Hmain & _).
  - reflexivity.
  - vm_compute in Hmain. vm_compute. exact Hmain.
Defined.

(** X7: on a join the two writes are isolated from each other.  The
    listener never throws; the configuration row is created whenever the
    first call reaches the database, even if the statistics write then fails;
    and the statistics are rewritten whenever the second call reaches the
    database, even if the configuration insert failed before it. *)
Theorem on_guildCreate_isolates_failures this g w :
  let o := w_oracle w in
  let db' := w_db (exec (EventHandler.on_guildCreate this g) w) in
  completion (EventHandler.on_guildCreate this g) w = Normal tt
  /\ (db_fault o (w_dbio w) = None ->
      existsb (SQL.is_server_config (guild_id g)) (server_configs db') = true)
  /\ (db_fault o (S (w_dbio w)) = None ->
      exists now, List.filter is_main_stats (bot_stats db') = [stats_row this now]).
Proof.
  cbv zeta. split; [|split].
  - js_unfold. cbn.
    destruct (db_fault (w_oracle w) (w_dbio w)); cbn; destruct (db_fault _ _); reflexivity.
  - intros Hf. rewrite on_guildCreate_configs, Hf. apply insert_or_ignore_present.
  - intros Hf. js_unfold. cbn.
    destruct (db_fault (w_oracle w) (w_dbio w)); cbn; rewrite Hf; cbn.
    + eexists. rewrite List.filter_app, no_main_stats_left. reflexivity.
    + eexists. destruct (existsb _ _); cbn;
        rewrite List.filter_app, no_main_stats_left; reflexivity.
Qed.

(** X8: leaving a server only rewrites the statistics.  The listener never
    throws, and the configuration rows, the user levels and the usage log
    are as before: nothing is deleted for the server that was left. *)
Theorem on_guildDelete_keeps_rows this g w :
  let db' := w_db (exec (EventHandler.on_guildDelete this g) w) in
  completion (EventHandler.on_guildDelete this g) w = Normal tt
  /\ server_configs db' = server_configs (w_db w)
  /\ user_levels db' = user_levels (w_db w)
  /\ command_usage db' = command_usage (w_db w).
Proof.
  cbv zeta. unfold EventHandler.on_guildDelete. js_unfold. cbn.
  destruct (db_fault _ _); cbn; repeat split.
Qed.

(** X9: on [ready] the presence is set last and in every case, also when
    the statistics could not be written, and the listener never throws. *)
Theorem on_ready_sets_presence this w :
  completion (EventHandler.on_ready this) w = Normal tt
  /\ last (history (exec (EventHandler.on_ready this) w)) = Some PresenceSet.
Proof.
  unfold EventHandler.on_ready, EventHandler.setPresence. js_unfold. cbn.
  destruct (db_fault _ _); cbn; split; try reflexivity; apply last_snoc.
Qed.

(** ** Messages and awards *)

(** X10: [messageCreate] never throws and never changes a user's level row
    unless the message comes from a human, in a guild whose configuration row
    exists and does not have leveling switched off.  Messages by bots, direct
    messages, guilds without a configuration row, disabled leveling and a
    failed configuration lookup all leave [user_levels] alone. *)
Theorem on_messageCreate_requires_leveling message w :
  let w' := exec (EventHandler.on_messageCreate message) w in
  completion (EventHandler.on_messageCreate message) w = Normal tt
  /\ (user_levels (w_db w') <> user_levels (w_db w) ->
      author_bot message = false
      /\ exists s config,
          guild message = Some s
          /\ db_fault (w_oracle w) (w_dbio w) = None
          /\ SQL.select_server_config s (w_db w) = Some config
          /\ sc_leveling_enabled config <> 0).
Proof.
  cbv zeta. unfold EventHandler.on_messageCreate, EventHandler.getServerConfig.
  unfold exec, completion, try_catch, DB.first, mbind, Js_bind, mret, Js_ret,
    console.error.
  destruct (author_bot message); cbn; [split; [reflexivity | congruence]|].
  destruct (guild message) as [s|] eqn:Hg; cbn; [|split; [reflexivity | congruence]].
  destruct (db_fault (w_oracle w) (w_dbio w)) eqn:Hf; cbn;
    [split; [reflexivity | congruence]|].
  destruct (SQL.select_server_config s (w_db w)) as [config|] eqn:Hcfg; cbn;
    [|split; [reflexivity | congruence]].
  destruct (Z.eqb_spec (sc_leveling_enabled config) 0) as [He|Hne]; cbn;
    [split; [reflexivity | congruence]|].
  split.
  - apply (awardXP_returns message (next_dbio w)).
  - intros _. split; [reflexivity|]. now exists s, config.
Qed.

(** X11: a user's first qualifying message in a server creates their row:
    10 to 24 XP, level 0, one message, the time of the insert; the lookup
    then finds that row, and nobody is congratulated. *)
Theorem awardXP_first_contribution message s w :
  guild message = Some s ->
  db_fault (w_oracle w) (w_dbio w) = None ->
  db_fault (w_oracle w) (S (w_dbio w)) = None ->
  SQL.select_user_level (author_id message) s (w_db w) = None ->
  let now := SQL.CURRENT_TIMESTAMP (clock (w_oracle w) (S (w_clk w))) in
  let w' := exec (EventHandler.awardXP message) w in
  exists id xp,
    (10 <= xp <= 24)%N
    /\ SQL.select_user_level (author_id message) s (w_db w')
       = Some {| ul_id := id; ul_user_id := author_id message; ul_server_id := s;
                 ul_xp := xp; ul_level := 0; ul_messages_sent := 1;
                 ul_last_xp_gain := Some now |}
    /\ user_levels (w_db w')
       = user_levels (w_db w)
         ++ [{| ul_id := id; ul_user_id := author_id message; ul_server_id := s;
                ul_xp := xp; ul_level := 0; ul_messages_sent := 1;
                ul_last_xp_gain := Some now |}]
    /\ history w' = history w ++ [Ran (InsertUserLevel id (author_id message) s xp now)].
Proof.
  intros Hg Hf Hf2 Hsel. cbv zeta.
  destruct (awardXP_insert message s w Hg Hf Hsel Hf2) as [Hdb Htr]. cbv zeta in Hdb, Htr.
  exists (MkRowId "lvl" (clock (w_oracle w) (w_clk w))
            (Math.of_draw (random (w_oracle w) (S (w_rnd w))))),
    (Z.to_N (xpToAward (Math.of_draw (random (w_oracle w) (w_rnd w))))).
  rewrite Hdb. split; [|split; [|split]].
  - pose proof (xpToAward_bounds (random (w_oracle w) (w_rnd w))). lia.
  - apply select_after_insert_new. exact Hsel.
  - reflexivity.
  - unfold history. rewrite Htr. reflexivity.
Qed.

Lemma awardXP_first_contribution_witness :
  exists id xp,
    (10 <= xp <= 24)%N
    /\ user_levels (w_db (exec (EventHandler.awardXP Sample.message_1)
                            (initial Sample.calm Sample.empty_db)))
       = [{| ul_id := id; ul_user_id := "user-1"; ul_server_id := "guild-1";
             ul_xp := xp; ul_level := 0; ul_messages_sent := 1;
             ul_last_xp_gain := Some 1700000001 |}].
Proof.
  destruct (awardXP_first_contribution Sample.message_1 "guild-1"
              (initial Sample.calm Sample.empty_db))
    as (id & xp & Hxp & _ & Hrows & _).
  - reflexivity.
  - reflexivity.
  - reflexivity.
  - reflexivity.
  - exists id, xp. split; [exact Hxp | exact Hrows].
Defined.

(** X12: a failure inside [awardXP] stays inside.  The method always
    returns; when the message has no guild, when the lookup fails or when the
    write fails, the database is unchanged, nobody is congratulated, and the
    error is printed on the console. *)
Theorem awardXP_contains_failure message w :
  let o := w_oracle w in
  let w' := exec (EventHandler.awardXP message) w in
  completion (EventHandler.awardXP message) w = Normal tt
  /\ (guild message = None ->
      w_db w' = w_db w
      /\ exists e, history w' = history w ++ [ConsoleError (FailedToAwardXP e)])
  /\ (forall s e,
         guild message = Some s -> db_fault o (w_dbio w) = Some e ->
         w_db w' = w_db w
         /\ history w' = history w ++ [ConsoleError (FailedToAwardXP e)])
  /\ (forall s e,
         guild message = Some s -> db_fault o (w_dbio w) = None ->
         db_fault o (S (w_dbio w)) = Some e ->
         w_db w' = w_db w
         /\ (history w' = history w
             \/ history w' = history w ++ [ConsoleError (FailedToAwardXP e)])).
Proof.
  cbv zeta. split; [apply awardXP_returns|]. split; [|split].
  - intros Hg. js_unfold. rewrite Hg. cbn. split; [reflexivity|]. eexists. reflexivity.
  - intros s e Hg Hf. js_unfold. rewrite Hg. cbn. rewrite Hf. cbn. split; reflexivity.
  - intros s e Hg Hf Hf2. js_unfold. rewrite Hg. cbn. rewrite Hf. cbn.
    destruct (SQL.select_user_level _ _ _) as [row|]; cbn.
    + destruct (ul_last_xp_gain row); cbn; [destruct (_ <? _); cbn|];
        rewrite ?Hf2; cbn; (split; [reflexivity|]); (now left) || (now right).
    + rewrite Hf2. cbn. split; [reflexivity | now right].
Qed.

Lemma find_app_last {A} (P : A -> bool) l a :
  P a = false -> find P (l ++ [a]) = find P l.
Proof.
  intros Ha. induction l as [|b l IH]; cbn; [now rewrite Ha|].
  destruct (P b); [reflexivity | exact IH].
Qed.

Lemma select_after_insert_other id u s xp now u' s' db :
  (u', s') <> (u, s) ->
  SQL.select_user_level u' s' (SQL.run (InsertUserLevel id u s xp now) db)
  = SQL.select_user_level u' s' db.
Proof.
  intros Hne. unfold SQL.select_user_level. cbn. apply find_app_last.
  apply not_true_is_false. intros Hm. apply is_user_level_spec in Hm. cbn in Hm.
  destruct Hm as [-> ->]. now apply Hne.
Qed.

(** X13: [awardXP] only concerns the author's row in the message's guild.
    The rows that the lookup returns for any other user or server are the
    same before and after, and so are the other three tables. *)
Theorem awardXP_frame message w :
  let db' := w_db (exec (EventHandler.awardXP message) w) in
  (forall u' s',
      (u', Some s') <> (author_id message, guild message) ->
      SQL.select_user_level u' s' db' = SQL.select_user_level u' s' (w_db w))
  /\ command_usage db' = command_usage (w_db w)
  /\ server_configs db' = server_configs (w_db w)
  /\ bot_stats db' = bot_stats (w_db w).
Proof.
  cbv zeta. destruct (awardXP_cases message w) as [_ Hcases]. cbv zeta in Hcases.
  destruct Hcases as [[Hdb _] | [Hupd | Hins]].
  - rewrite Hdb. repeat split.
  - destruct Hupd as (s & row & k & xp & Hg & _ & _ & _ & Hdb & _). rewrite Hdb.
    split; [|repeat split]. intros u' s' Hne.
    apply select_after_update_other. rewrite Hg in Hne. congruence.
  - destruct Hins as (s & k & id & Hg & _ & Hdb & _). rewrite Hdb.
    split; [|repeat split]. intros u' s' Hne.
    apply select_after_insert_other. rewrite Hg in Hne. congruence.
Qed.

Lemma awardXP_frame_witness :
  SQL.select_user_level "user-1" "guild-1"
    (w_db (exec (EventHandler.awardXP Scenario.message_2)
             (initial Sample.calm (Sample.db_with (Sample.row_1 100 1 None)))))
  = Some (Sample.row_1 100 1 None).
Proof.
  rewrite (proj1 (awardXP_frame Scenario.message_2
                    (initial Sample.calm (Sample.db_with (Sample.row_1 100 1 None))))).
  - reflexivity.
  - vm_compute. discriminate.
Defined.

(** ** Totals and levels *)

Lemma of_Z_exact n : 0 <= n < 2 ^ 53 -> Float64.of_Z n = Float64.mk n 0.
Proof.
  intros Hn. unfold Float64.of_Z, Float64.round.
  assert (Hs : Float64.excess n = 0)
    by (pose proof (excess_le n 0 ltac:(cbn; lia) ltac:(lia)); lia).
  rewrite Hs. reflexivity.
Qed.

Lemma addXP_sum xp delta :
  0 <= delta ->
  Z.of_N xp + delta < 2 ^ 53 ->
  addXP xp delta = (xp + Z.to_N delta)%N.
Proof.
  intros Hd Hlt. unfold addXP, Float64.of_N, Float64.add.
  rewrite !of_Z_exact by lia. cbn [Float64.mant Float64.expo].
  change (Z.min 0 0) with 0. change (0 - 0) with 0. change (2 ^ 0) with 1.
  rewrite !Z.mul_1_r. fold (Float64.of_Z (Z.of_N xp + delta)).
  rewrite of_Z_exact by lia. unfold Float64.floor. cbn [Float64.mant Float64.expo].
  rewrite Z.shiftl_0_r. lia.
Qed.

(** X14: below [2^53] the addition of an award to a total is exact: the
    total grows by the award, nothing is lost to rounding, and a positive
    award makes the total strictly larger. *)
Theorem addXP_exact xp delta :
  0 <= delta ->
  Z.of_N xp + delta < 2 ^ 53 ->
  addXP xp delta = (xp + Z.to_N delta)%N
  /\ (0 < delta -> (xp < addXP xp delta)%N).
Proof.
  intros Hd Hlt. rewrite (addXP_sum xp delta Hd Hlt). split; [reflexivity | lia].
Qed.

Lemma addXP_exact_witness : addXP 9007199254740000 24 = 9007199254740024%N.
Proof. apply (addXP_exact 9007199254740000 24); [lia | vm_compute; reflexivity]. Defined.

(** X15: for totals below 10000, level [L] is held exactly from
    [100 * L^2] XP up to, but not including, [100 * (L + 1)^2] XP; in
    particular the level never goes down when the total grows. *)
Theorem levelOf_thresholds xp L :
  (xp < 10000)%N ->
  levelOf xp = L <-> (100 * L * L <= xp < 100 * (L + 1) * (L + 1))%N.
Proof.
  intros Hlt. rewrite (levelOf_exact xp Hlt).
  pose proof (Z.sqrt_spec (Z.of_N xp) ltac:(lia)) as Hs.
  set (r := Z.sqrt (Z.of_N xp)) in *.
  assert (Hr : 0 <= r) by apply Z.sqrt_nonneg.
  pose proof (Z.div_mod r 10 ltac:(lia)) as Hdm.
  pose proof (Z.mod_pos_bound r 10 ltac:(lia)) as Hm.
  set (q := r / 10) in *. set (m := r mod 10) in *.
  assert (Hq : 0 <= q) by lia.
  cbv zeta in Hs. unfold Z.succ in Hs. clearbody q m r.
  split.
  - intros <-. nia.
  - intros [Hlo Hhi]. assert (q = Z.of_N L) by nia. lia.
Qed.

Lemma levelOf_thresholds_witness :
  levelOf 399 = 1%N /\ levelOf 400 = 2%N.
Proof.
  split.
  - apply (levelOf_thresholds 399 1); [reflexivity | lia].
  - apply (levelOf_thresholds 400 2); [reflexivity | lia].
Defined.

(** X16: an award over an existing row (the cooldown passed, both database
    calls answered, the total below [2^53]) raises the stored XP by 10 to 24,
    stores the level of the new total, counts one more message and stamps the
    row; identifier, user and server of the row stay. *)
Theorem awardXP_grows_row message s w row :
  guild message = Some s ->
  db_fault (w_oracle w) (w_dbio w) = None ->
  db_fault (w_oracle w) (S (w_dbio w)) = None ->
  SQL.select_user_level (author_id message) s (w_db w) = Some row ->
  (forall stamp, ul_last_xp_gain row = Some stamp ->
                 60000 <= clock (w_oracle w) (w_clk w) - Date.getTime stamp) ->
  Z.of_N (ul_xp row) + 24 < 2 ^ 53 ->
  exists delta now,
    (10 <= delta <= 24)%N
    /\ SQL.select_user_level (author_id message) s
         (w_db (exec (EventHandler.awardXP message) w))
       = Some {| ul_id := ul_id row; ul_user_id := ul_user_id row;
                 ul_server_id := ul_server_id row;
                 ul_xp := ul_xp row + delta; ul_level := levelOf (ul_xp row + delta);
                 ul_messages_sent := ul_messages_sent row + 1;
                 ul_last_xp_gain := Some now |}%N.
Proof.
  intros Hg Hf Hf2 Hsel Hgate Hsmall.
  destruct (awardXP_update message s w row Hg Hf Hsel Hgate Hf2) as [Hdb _].
  cbv zeta in Hdb.
  pose proof (xpToAward_bounds (random (w_oracle w) (w_rnd w))) as Hb.
  set (d := xpToAward (Math.of_draw (random (w_oracle w) (w_rnd w)))) in *.
  rewrite (addXP_sum (ul_xp row) d) in Hdb by lia.
  eexists (Z.to_N d), _. split; [lia|].
  rewrite Hdb, select_after_update, Hsel. cbn.
  apply select_found in Hsel. apply is_user_level_spec in Hsel.
  unfold SQL.update_user_level. rewrite Hsel. reflexivity.
Qed.

Lemma awardXP_grows_row_witness :
  exists delta now,
    (10 <= delta <= 24)%N
    /\ SQL.select_user_level "user-1" "guild-1"
         (w_db (exec (EventHandler.awardXP Sample.message_1)
                  (initial Sample.calm
                     (Sample.db_with (Sample.row_1 100 1 (Some 1690000000))))))
       = Some {| ul_id := MkRowId "lvl" 1690000000000 (Math.of_draw 1);
                 ul_user_id := "user-1"; ul_server_id := "guild-1";
                 ul_xp := 100 + delta; ul_level := levelOf (100 + delta);
                 ul_messages_sent := 7 + 1; ul_last_xp_gain := Some now |}%N.
Proof.
  apply (awardXP_grows_row Sample.message_1 "guild-1"
           (initial Sample.calm (Sample.db_with (Sample.row_1 100 1 (Some 1690000000))))
           (Sample.row_1 100 1 (Some 1690000000))).
  - reflexivity.
  - reflexivity.
  - reflexivity.
  - reflexivity.
  - intros stamp [= <-]. vm_compute. discriminate.
  - vm_compute. reflexivity.
Defined.

Lemma update_changes_row xp level u s now row :
  SQL.update_user_level xp level u s now row = row ->
  SQL.is_user_level u s row = false.
Proof.
  unfold SQL.update_user_level. destruct (SQL.is_user_level u s row); [|reflexivity].
  intros Heq. apply (f_equal ul_messages_sent) in Heq. cbn in Heq. lia.
Qed.

(** X17: the cooldown is exactly one minute after the stored second.  With
    a stamped row and an answering database, [awardXP] changes the database
    if and only if the clock shows at least 60000 ms more than the stamp: an
    award is possible at 60000 ms sharp and impossible at 59999 ms. *)
Theorem cooldown_boundary message s w row stamp :
  guild message = Some s ->
  db_fault (w_oracle w) (w_dbio w) = None ->
  db_fault (w_oracle w) (S (w_dbio w)) = None ->
  SQL.select_user_level (author_id message) s (w_db w) = Some row ->
  ul_last_xp_gain row = Some stamp ->
  w_db (exec (EventHandler.awardXP message) w) <> w_db w
  <-> 60000 <= clock (w_oracle w) (w_clk w) - Date.getTime stamp.
Proof.
  intros Hg Hf Hf2 Hsel Hlast.
  destruct (Z.lt_ge_cases (clock (w_oracle w) (w_clk w) - Date.getTime stamp) 60000)
    as [Hlt|Hge].
  - unfold exec. rewrite (awardXP_cooldown message s w row stamp Hg Hf Hsel Hlast Hlt).
    cbn. split; [congruence | lia].
  - split; [intros _; exact Hge|]. intros _ Heq.
    destruct (awardXP_update message s w row Hg Hf Hsel) as [Hdb _].
    + intros stamp' Hs. rewrite Hlast in Hs. injection Hs as <-. exact Hge.
    + exact Hf2.
    + cbv zeta in Hdb. rewrite Hdb in Heq.
      apply (f_equal (SQL.select_user_level (author_id message) s)) in Heq.
      rewrite select_after_update, Hsel in Heq. cbn in Heq. injection Heq as Heq.
      apply update_changes_row in Heq.
      apply select_found in Hsel. apply is_user_level_spec in Hsel. congruence.
Qed.

Lemma cooldown_boundary_witness :
  w_db (exec (EventHandler.awardXP Sample.message_1)
          (initial Sample.calm (Sample.db_with (Sample.row_1 100 1 (Some 1699999940)))))
  <> Sample.db_with (Sample.row_1 100 1 (Some 1699999940))
  /\ w_db (exec (EventHandler.awardXP Sample.message_1)
             (initial Sample.calm (Sample.db_with (Sample.row_1 100 1 (Some 1699999941)))))
     = Sample.db_with (Sample.row_1 100 1 (Some 1699999941)).
Proof.
  split; [|vm_compute; reflexivity].
  apply (cooldown_boundary Sample.message_1 "guild-1"
           (initial Sample.calm (Sample.db_with (Sample.row_1 100 1 (Some 1699999940))))
           (Sample.row_1 100 1 (Some 1699999940)) 1699999940).
  - reflexivity.
  - reflexivity.
  - reflexivity.
  - reflexivity.
  - reflexivity.
  - vm_compute. discriminate.
Defined.

(** ** Configuration rows *)

Lemma find_matches {A} (P : A -> bool) l a : find P l = Some a -> P a = true.
Proof. intros H. now apply find_some in H. Qed.

(** X18: creating the configuration of a guild and then looking it up finds
    a row of that guild.  If the guild had a row already, that row comes back
    untouched, with its own name, creation time and leveling flag; otherwise
    the new row comes back, with leveling enabled. *)
Theorem created_config_is_found g w :
  db_fault (w_oracle w) (w_dbio w) = None ->
  db_fault (w_oracle w) (S (w_dbio w)) = None ->
  exists config,
    completion (EventHandler.createServerConfig g;;
                EventHandler.getServerConfig (guild_id g)) w
    = Normal (Some config)
    /\ sc_server_id config = guild_id g
    /\ (forall old, SQL.select_server_config (guild_id g) (w_db w) = Some old ->
                    config = old)
    /\ (SQL.select_server_config (guild_id g) (w_db w) = None ->
        config = {| sc_server_id := guild_id g; sc_server_name := guild_name g;
                    sc_created_at := SQL.CURRENT_TIMESTAMP (clock (w_oracle w) (w_clk w));
                    sc_leveling_enabled := 1 |}).
Proof.
  intros Hf Hf2. js_unfold. cbn. rewrite Hf. cbn. rewrite Hf2. cbn.
  unfold SQL.select_server_config.
  destruct (find (SQL.is_server_config (guild_id g)) (server_configs (w_db w)))
    as [old|] eqn:Hfind.
  - assert (Hex : existsb (SQL.is_server_config (guild_id g)) (server_configs (w_db w))
                  = true).
    { apply existsb_exists. apply find_some in Hfind as [Hin Hm]. now exists old. }
    rewrite Hex, Hfind. exists old. split; [reflexivity|]. split; [|split].
    + apply find_matches in Hfind. now apply String.eqb_eq in Hfind.
    + now intros ? [= <-].
    + discriminate.
  - assert (Hex : existsb (SQL.is_server_config (guild_id g)) (server_configs (w_db w))
                  = false).
    { apply not_true_is_false. intros Hex. apply existsb_exists in Hex as (b & Hb & Hm).
      pose proof (find_none _ _ Hfind _ Hb). congruence. }
    rewrite Hex. cbn. rewrite (find_app_none _ _ _ Hfind). cbn.
    unfold SQL.is_server_config. cbn. rewrite String.eqb_refl.
    eexists. split; [reflexivity|]. split; [reflexivity|]. split; [discriminate | reflexivity].
Qed.

Lemma created_config_is_found_witness :
  exists config,
    completion (EventHandler.createServerConfig Sample.guild_1_renamed;;
                EventHandler.getServerConfig "guild-1")
      (initial Sample.calm Scenario.db_leveling_off)
    = Normal (Some config)
    /\ config = Scenario.disabled_config.
Proof.
  destruct (created_config_is_found Sample.guild_1_renamed
              (initial Sample.calm Scenario.db_leveling_off))
    as (config & Hc & _ & Hold & _).
  - reflexivity.
  - reflexivity.
  - exists config. split; [exact Hc|]. apply Hold. reflexivity.
Defined.

(** ** The database utilities *)

(** X19: [isBlacklisted] answers [true] exactly when the lookup succeeded
    and the blacklist holds a row of that type and target.  It fails open:
    when the database call fails, the answer is [false] and the error is only
    printed. *)
Theorem isBlacklisted_spec this type targetId :
  (fst (DatabaseUtils.isBlacklisted this type targetId) = true
   <-> DatabaseUtils.d1_fault (DatabaseUtils.db this) = None
       /\ exists r, In r (DatabaseUtils.d1_blacklist (DatabaseUtils.db this))
                    /\ DatabaseUtils.bl_type r = type
                    /\ DatabaseUtils.bl_target_id r = targetId)
  /\ (forall e, DatabaseUtils.d1_fault (DatabaseUtils.db this) = Some e ->
                DatabaseUtils.isBlacklisted this type targetId = (false, [e])).
Proof.
  unfold DatabaseUtils.isBlacklisted, DatabaseUtils.first.
  destruct (DatabaseUtils.d1_fault (DatabaseUtils.db this)) as [e|]; cbn.
  - split; [|now intros ? [= <-]]. split; [discriminate | intros [? _]; discriminate].
  - split; [|discriminate].
    destruct (find _ _) as [r|] eqn:Hfind; cbn.
    + split; [|reflexivity]. intros _. split; [reflexivity|].
      apply find_some in Hfind as [Hin Hm]. exists r. split; [exact Hin|].
      unfold DatabaseUtils.is_blacklist_entry in Hm.
      apply andb_true_iff in Hm as [Ht Hi]. now rewrite String.eqb_eq in Ht, Hi.
    + split; [discriminate|]. intros [_ (r & Hin & Ht & Hi)].
      pose proof (find_none _ _ Hfind r Hin) as Hno.
      unfold DatabaseUtils.is_blacklist_entry in Hno.
      rewrite Ht, Hi, !String.eqb_refl in Hno. discriminate.
Qed.

(** X20: [getGlobalConfig] returns the value of the first row stored under
    the key.  It returns [null] when no row has the key, and also when the
    database call fails (then the error is printed), so the caller cannot
    tell a missing key from a failed lookup. *)
Theorem getGlobalConfig_spec this key :
  let table := DatabaseUtils.d1_global_config (DatabaseUtils.db this) in
  (forall before row rest,
      DatabaseUtils.d1_fault (DatabaseUtils.db this) = None ->
      table = before ++ row :: rest ->
      DatabaseUtils.gc_key row = key ->
      (forall r, In r before -> DatabaseUtils.gc_key r <> key) ->
      DatabaseUtils.getGlobalConfig this key = (DatabaseUtils.gc_value row, []))
  /\ (DatabaseUtils.d1_fault (DatabaseUtils.db this) = None ->
      (forall r, In r table -> DatabaseUtils.gc_key r <> key) ->
      DatabaseUtils.getGlobalConfig this key = (None, []))
  /\ (forall e, DatabaseUtils.d1_fault (DatabaseUtils.db this) = Some e ->
                DatabaseUtils.getGlobalConfig this key = (None, [e])).
Proof.
  cbv zeta. unfold DatabaseUtils.getGlobalConfig, DatabaseUtils.first.
  split; [|split].
  - intros before row rest Hf Htable Hkey Hbefore. rewrite Hf, Htable.
    assert (Hnone : find (DatabaseUtils.is_global_config key) before = None).
    { clear Htable. induction before as [|b l IH]; [reflexivity|]. cbn.
      unfold DatabaseUtils.is_global_config at 1.
      destruct (String.eqb_spec (DatabaseUtils.gc_key b) key) as [Heq|_].
      - exfalso. apply (Hbefore b); [now left | exact Heq].
      - apply IH. intros r Hr. apply Hbefore. now right. }
    rewrite (find_app_none _ _ _ Hnone). cbn.
    unfold DatabaseUtils.is_global_config. rewrite Hkey, String.eqb_refl. reflexivity.
  - intros Hf Hnone. rewrite Hf.
    destruct (find _ _) as [r|] eqn:Hfind; [|reflexivity].
    apply find_some in Hfind as [Hin Hm]. unfold DatabaseUtils.is_global_config in Hm.
    apply String.eqb_eq in Hm. now apply Hnone in Hin.
  - intros e Hf. now rewrite Hf.
Qed.

Lemma getGlobalConfig_spec_witness :
  DatabaseUtils.getGlobalConfig Scenario.utils "motd" = (Some "hello", [])
  /\ DatabaseUtils.getGlobalConfig Scenario.utils "absent" = (None, [])
  /\ DatabaseUtils.getGlobalConfig Scenario.utils_down "motd"
     = (None, [ErrorObject "D1_ERROR"]).
Proof.
  split; [|split].
  - apply (proj1 (getGlobalConfig_spec Scenario.utils "motd") []
             {| DatabaseUtils.gc_key := "motd"; DatabaseUtils.gc_value := Some "hello" |}
             [{| DatabaseUtils.gc_key := "unset"; DatabaseUtils.gc_value := None |}]).
    + reflexivity.
    + reflexivity.
    + reflexivity.
    + intros r [].
  - apply (proj1 (proj2 (getGlobalConfig_spec Scenario.utils "absent"))).
    + reflexivity.
    + intros r Hin. vm_compute in Hin. destruct Hin as [<- | [<- | []]]; discriminate.
  - apply (proj2 (proj2 (getGlobalConfig_spec Scenario.utils_down "motd"))).
    reflexivity.
Defined.

(** ** One level row per user and server *)

Lemma update_keeps_keys xp level u s now l :
  map user_level_key (map (SQL.update_user_level xp level u s now) l)
  = map user_level_key l.
Proof.
  induction l as [|r l IH]; [reflexivity|]. cbn. rewrite IH. f_equal.
  unfold SQL.update_user_level. destruct (SQL.is_user_level u s r); reflexivity.
Qed.

Lemma NoDup_snoc {A} (a : A) l :
  ~ In a l -> List.NoDup l -> List.NoDup (l ++ [a]).
Proof.
  intros Ha Hl. induction Hl as [|b l Hb Hl IH]; cbn.
  - constructor; [intros [] | constructor].
  - constructor.
    + rewrite in_app_iff. intros [Hin | [-> | []]]; [contradiction|].
      apply Ha. now left.
    + apply IH. intros Hin. apply Ha. now right.
Qed.

Lemma awardXP_keeps_one_row_per_pair message w :
  one_row_per_pair (w_db w) ->
  one_row_per_pair (w_db (exec (EventHandler.awardXP message) w)).
Proof.
  intros Hu. destruct (awardXP_cases message w) as [_ Hcases]. cbv zeta in Hcases.
  destruct Hcases as [[Hdb _] | [Hupd | Hins]].
  - now rewrite Hdb.
  - destruct Hupd as (s & row & k & xp & _ & _ & _ & _ & Hdb & _). rewrite Hdb.
    unfold one_row_per_pair. cbn. now rewrite update_keeps_keys.
  - destruct Hins as (s & k & id & _ & Hsel & Hdb & _). rewrite Hdb.
    unfold one_row_per_pair in *. cbn. rewrite map_app. cbn.
    apply NoDup_snoc; [|exact Hu].
    intros Hin. apply List.in_map_iff in Hin as (r & Hkey & Hr).
    unfold SQL.select_user_level in Hsel. pose proof (find_none _ _ Hsel r Hr) as Hno.
    unfold user_level_key in Hkey. injection Hkey as Hu' Hs'.
    assert (SQL.is_user_level (author_id message) s r = true)
      by now apply is_user_level_spec.
    congruence.
Qed.

(** X21: the lookup-then-insert of [awardXP] keeps one row per user and
    server.  Starting from a table without duplicates (the empty table, for
    one), any number of awards handled one after the other leaves a table
    without duplicates, whatever fails on the way. *)
Theorem award_all_keeps_one_row_per_pair messages w :
  one_row_per_pair (w_db w) ->
  one_row_per_pair (w_db (exec (award_all messages) w)).
Proof.
  revert w. induction messages as [|message rest IH]; intros w Hu; [exact Hu|].
  rewrite exec_award_all_cons. apply IH. now apply awardXP_keeps_one_row_per_pair.
Qed.

Lemma award_all_keeps_one_row_per_pair_witness :
  one_row_per_pair
    (w_db (exec (award_all [Sample.message_1; Scenario.message_2; Sample.message_1])
             (initial Sample.slow Sample.empty_db))).
Proof.
  apply (award_all_keeps_one_row_per_pair
           [Sample.message_1; Scenario.message_2; Sample.message_1]
           (initial Sample.slow Sample.empty_db)).
  constructor.
Defined.
